(** * smart_daily_planner: a shallow embedding of [main.py]

    The server is a set of FastAPI handlers.  Each handler is embedded as a
    computation in a state-and-exception monad [M] over a [World] that holds
    the local file system and the log of calls that leave the process.
    Everything the handlers obtain from outside the program (the process
    environment, the HTTP client, yfinance, feedparser, the Google client
    libraries) is a field of one record [Env]; every theorem quantifies over
    it. *)

From Stdlib Require Import ZArith String Ascii List DecimalString.
From Stdlib Require Import SpecFloat.
From stdpp Require Import base option list gmap strings.

Set Warnings "-register-all".

Local Open Scope Z_scope.
Local Open Scope string_scope.

(** ** Python values *)

(** The JSON-shaped fragment of Python data the handlers touch.  A [dict] is
    an association list in insertion order; its keys are unique. *)
Inductive pyval : Type :=
| PyNone
| PyBool (b : bool)
| PyInt (z : Z)
| PyFloat (f : spec_float)
| PyStr (s : string)
| PyList (l : list pyval)
| PyDict (d : list (string * pyval)).

(** Exceptions, by class.  [LibraryError] stands for whatever a third-party
    call raises (httpx, yfinance, google-auth, googleapiclient). *)
Inductive exn : Type :=
| KeyError (key : string)
| AttributeError (attr : string)
| TypeError (msg : string)
| IndexError (msg : string)
| ValueError (msg : string)
| FileNotFoundError (path : string)
| FileExistsError (path : string)
| IsADirectoryError (path : string)
| NotADirectoryError (path : string)
| LibraryError (origin detail : string).

Inductive outcome (A : Type) : Type :=
| Return (a : A)
| Raise (e : exn).
Arguments Return {A} a.
Arguments Raise {A} e.

#[global] Instance outcome_ret : MRet outcome := fun A a => Return a.
#[global] Instance outcome_bind : MBind outcome := fun A B k o =>
  match o with
  | Return a => k a
  | Raise e => Raise e
  end.

(** Truth value of [if v:]. *)
Definition float_is_zero (f : spec_float) : bool :=
  match f with
  | S754_zero _ => true
  | _ => false
  end.

Definition truthy (v : pyval) : bool :=
  match v with
  | PyNone => false
  | PyBool b => b
  | PyInt z => negb (Z.eqb z 0)
  | PyFloat f => negb (float_is_zero f)
  | PyStr s => negb (String.eqb s "")
  | PyList l => match l with [] => false | _ => true end
  | PyDict d => match d with [] => false | _ => true end
  end.

Definition str_truthy (s : string) : bool := negb (String.eqb s "").

Definition is_none (v : pyval) : bool :=
  match v with
  | PyNone => true
  | _ => false
  end.

(** Lookup in an association list: the first binding of the key. *)
Fixpoint assoc {A : Type} (k : string) (d : list (string * A)) : option A :=
  match d with
  | [] => None
  | (k', v) :: rest => if String.eqb k k' then Some v else assoc k rest
  end.

(** [d.get(key)] and [d.get(key, default)] on a plain [dict]. *)
Definition dict_get (d : list (string * pyval)) (k : string) (default : pyval) : pyval :=
  match assoc k d with
  | Some v => v
  | None => default
  end.

(** [v.get(key, default)]: only a [dict] has the method. *)
Definition py_get (v : pyval) (k : string) (default : pyval) : outcome pyval :=
  match v with
  | PyDict d => Return (dict_get d k default)
  | _ => Raise (AttributeError "get")
  end.

(** [v[key]] with a string key. *)
Definition py_getitem (v : pyval) (k : string) : outcome pyval :=
  match v with
  | PyDict d =>
      match assoc k d with
      | Some x => Return x
      | None => Raise (KeyError k)
      end
  | PyList _ => Raise (TypeError "list indices must be integers or slices, not str")
  | PyStr _ => Raise (TypeError "string indices must be integers, not 'str'")
  | _ => Raise (TypeError "object is not subscriptable")
  end.

(** One-character pieces of a string, as [for c in s] yields them (per byte
    here; the handlers only index the pieces, which raises for every one). *)
Fixpoint str_items (s : string) : list pyval :=
  match s with
  | EmptyString => []
  | String c rest => PyStr (String c EmptyString) :: str_items rest
  end.

(** The items [for g in v] iterates over. *)
Definition py_iter (v : pyval) : outcome (list pyval) :=
  match v with
  | PyList l => Return l
  | PyDict d => Return (map (fun kv => PyStr (fst kv)) d)
  | PyStr s => Return (str_items s)
  | _ => Raise (TypeError "object is not iterable")
  end.

(** [str(n)] for an [int]. *)
Definition str_of_int (n : Z) : string := NilZero.string_of_int (Z.to_int n).

(** [s.replace(old, new)] for one-character [old] and [new]. *)
Fixpoint replace_char (old new : ascii) (s : string) : string :=
  match s with
  | EmptyString => EmptyString
  | String c rest =>
      String (if Ascii.eqb c old then new else c) (replace_char old new rest)
  end.

(** The float values [json.dumps(..., allow_nan=False)] accepts. *)
Definition float_finite (f : spec_float) : bool :=
  match f with
  | S754_zero _ | S754_finite _ _ _ => true
  | S754_infinity _ | S754_nan => false
  end.

Fixpoint json_compliant (v : pyval) : bool :=
  match v with
  | PyFloat f => float_finite f
  | PyList l => forallb json_compliant l
  | PyDict d => forallb (fun kv => json_compliant (snd kv)) d
  | _ => true
  end.

(** ** Paths: [os.path.join] and [os.path.dirname] (POSIX) *)

Definition ends_with_slash (s : string) : bool :=
  match String.length s with
  | O => false
  | S n => match String.get n s with
           | Some c => Ascii.eqb c "/"
           | None => false
           end
  end.

Definition starts_with_slash (s : string) : bool :=
  match s with
  | String c _ => Ascii.eqb c "/"
  | EmptyString => false
  end.

Definition path_join (a b : string) : string :=
  if starts_with_slash b then b
  else if String.eqb a "" || ends_with_slash a then a +:+ b
  else a +:+ "/" +:+ b.

(** The prefix of [s] up to and including its last slash. *)
Fixpoint head_upto_slash (s : string) : option string :=
  match s with
  | EmptyString => None
  | String c rest =>
      match head_upto_slash rest with
      | Some h => Some (String c h)
      | None => if Ascii.eqb c "/" then Some (String c EmptyString) else None
      end
  end.

Fixpoint rstrip_slash (s : string) : string :=
  match s with
  | EmptyString => EmptyString
  | String c rest =>
      let r := rstrip_slash rest in
      if String.eqb r "" && Ascii.eqb c "/" then EmptyString else String c r
  end.

Definition dirname (p : string) : string :=
  match head_upto_slash p with
  | None => ""
  | Some h => if String.eqb (rstrip_slash h) "" then h else rstrip_slash h
  end.

(** ** The world outside the handlers *)

(** [google.oauth2.credentials.Credentials], by the attributes the stored
    token carries. *)
Record Credentials := {
  token : string;
  refresh_token : option string;
  scopes : list string;
  expiry : option string
}.

(** [google_auth_oauthlib.flow.Flow]. *)
Record Flow := {
  client_config : string;
  flow_scopes : list string;
  redirect_uri : option string
}.

(** One call on an [httpx.AsyncClient]. *)
Record request := {
  method : string;
  url : string;
  params : list (string * pyval);
  data : option string;
  headers : list (string * string);
  timeout : option Z
}.

(** An [httpx.Response], by what its two methods do when called. *)
Record http_response := {
  resp_raise_for_status : option exn;
  resp_json : outcome pyval
}.

(** A [pandas.DataFrame] of floats: the index length and the columns. *)
Record DataFrame := {
  df_rows : nat;
  df_columns : list (string * list spec_float)
}.

(** A request built by a [googleapiclient] service and run by [execute()]. *)
Record gcall := {
  g_service : string;
  g_version : string;
  g_creds : Credentials;
  g_method : string;
  g_kwargs : list (string * pyval)
}.

(** A feed entry ([feedparser.FeedParserDict]). *)
Definition entry : Type := list (string * pyval).

(** What leaves the process. *)
Inductive event : Type :=
| EvHttp (r : request)
| EvTickerInfo (symbol : string)
| EvTickerHistory (symbol period : string)
| EvFeed (feed_url : string)
| EvFetchToken (f : Flow) (authorization_response : string)
| EvBuild (service version : string) (c : Credentials)
| EvExecute (c : gcall).

Inductive node : Type :=
| File (content : string)
| Dir.

Record World := {
  fs : gmap string node;
  trace : list event
}.

(** The behaviour of everything the program calls but does not define. *)
Record Env := {
  environ : gmap string string;
  str_lower : string -> string;
  float_str : spec_float -> string;
  httpx_send : request -> outcome http_response;
  yf_info : string -> outcome (list (string * pyval));
  yf_history : string -> string -> outcome DataFrame;
  feedparser_parse : string -> list entry;
  client_secrets_check : string -> option exn;
  flow_authorization_url : Flow -> list (string * string) -> string * string;
  flow_fetch_token : Flow -> string -> outcome Credentials;
  creds_to_json : Credentials -> string;
  creds_from_authorized_user_info : string -> list string -> outcome Credentials;
  google_build : string -> string -> Credentials -> outcome unit;
  google_execute : gcall -> outcome pyval;
  mime_raw : string -> string -> string -> outcome string
}.

(** ** The handler monad *)

Definition M (A : Type) : Type := World -> outcome A * World.

#[global] Instance M_ret : MRet M := fun A a w => (Return a, w).
#[global] Instance M_bind : MBind M := fun A B k m w =>
  match m w with
  | (Return a, w') => k a w'
  | (Raise e, w') => (Raise e, w')
  end.

Definition raise {A : Type} (e : exn) : M A := fun w => (Raise e, w).

Definition lift {A : Type} (o : outcome A) : M A := fun w => (o, w).

Definition emit (ev : event) : M unit := fun w =>
  (Return tt, {| fs := fs w; trace := trace w ++ [ev] |}).

(** An outward call: it is logged, then its result comes back. *)
Definition call {A : Type} (ev : event) (o : outcome A) : M A :=
  emit ev ;; lift o.

(** [os.path.exists(p)]. *)
Definition path_exists (p : string) : M bool := fun w =>
  (Return (bool_decide (is_Some (fs w !! p))), w).

(** Reading a whole file. *)
Definition read_file (p : string) : M string := fun w =>
  match fs w !! p with
  | Some (File c) => (Return c, w)
  | Some Dir => (Raise (IsADirectoryError p), w)
  | None => (Raise (FileNotFoundError p), w)
  end.

Definition parent_ok (p : string) (w : World) : option exn :=
  if String.eqb (dirname p) "" then None
  else match fs w !! dirname p with
       | Some Dir => None
       | Some (File _) => Some (NotADirectoryError p)
       | None => Some (FileNotFoundError p)
       end.

(** [open(p, "w")]: the file is created, or emptied when it is there. *)
Definition open_w (p : string) : M unit := fun w =>
  match parent_ok p w with
  | Some e => (Raise e, w)
  | None =>
      match fs w !! p with
      | Some Dir => (Raise (IsADirectoryError p), w)
      | _ => (Return tt, {| fs := <[p := File ""]> (fs w); trace := trace w |})
      end
  end.

(** [f.write(s)] on a file just opened with [open_w], and the close. *)
Definition f_write (p s : string) : M unit := fun w =>
  (Return tt, {| fs := <[p := File s]> (fs w); trace := trace w |}).

(** [os.makedirs(d, exist_ok=True)] for a one-component path. *)
Definition makedirs (d : string) : M unit := fun w =>
  match fs w !! d with
  | Some Dir => (Return tt, w)
  | Some (File _) => (Raise (FileExistsError d), w)
  | None => (Return tt, {| fs := <[d := Dir]> (fs w); trace := trace w |})
  end.

(** What a handler hands back to the framework. *)
Inductive retval : Type :=
| Content (v : pyval)
| JSONResponse (content : pyval) (status_code : Z)
| RedirectResponse (target : string)
| Coroutine (body : M pyval).

(** [starlette.concurrency.run_in_threadpool(func, arg)]: [func(arg)] is
    evaluated on a worker thread and its value is the result. *)
Definition run_in_threadpool {A B : Type} (func : A -> B) (arg : A) : M B :=
  mret (func arg).

(** The reply the framework sends for a handler's outcome: returned data is
    JSON-encoded with status 200, a response object is sent as it is, and an
    exception (from the handler or from the encoder, which refuses
    non-finite floats and objects that are not data) is a 500. *)
Record reply := {
  status : Z;
  payload : option pyval;
  location : option string
}.

Definition server_error : reply :=
  {| status := 500; payload := None; location := None |}.

Definition respond (o : outcome retval) : reply :=
  match o with
  | Return (Content v) =>
      if json_compliant v then {| status := 200; payload := Some v; location := None |}
      else server_error
  | Return (JSONResponse v s) =>
      if json_compliant v then {| status := s; payload := Some v; location := None |}
      else server_error
  | Return (RedirectResponse u) =>
      {| status := 307; payload := None; location := Some u |}
  | Return (Coroutine _) => server_error
  | Raise _ => server_error
  end.

(** One request served in world [w]: the reply and the world after. *)
Definition serve (h : M retval) (w : World) : reply * World :=
  (respond (h w).1, (h w).2).

(** ** The program *)

Definition nl : string := String (ascii_of_nat 10) EmptyString.

Definition SCOPES : list string :=
  [ "https://www.googleapis.com/auth/calendar.events";
    "https://www.googleapis.com/auth/gmail.modify";
    "https://www.googleapis.com/auth/gmail.send" ].

Definition TOKENS_DIR : string := "tokens".

Definition not_authenticated : retval :=
  JSONResponse (PyDict [("error", PyStr "not_authenticated")]) 401.

Definition movies_fallback : pyval :=
  PyDict [("results", PyList [
    PyDict [("title", PyStr "Inception");
            ("genres", PyList [PyStr "Action"; PyStr "Sci-Fi"])];
    PyDict [("title", PyStr "The Shawshank Redemption");
            ("genres", PyList [PyStr "Drama"])] ])].

(** [d[k] = v] on a [dict]. *)
Fixpoint dict_set (k : string) (v : pyval) (d : list (string * pyval))
  : list (string * pyval) :=
  match d with
  | [] => [(k, v)]
  | (k', v') :: rest =>
      if String.eqb k k' then (k, v) :: rest else (k', v') :: dict_set k v rest
  end.

(** [hist.empty]: some axis has length zero. *)
Definition df_empty (df : DataFrame) : bool :=
  Nat.eqb (df_rows df) 0 || match df_columns df with [] => true | _ => false end.

(** [hist[name]]. *)
Definition df_column (df : DataFrame) (name : string) : outcome (list spec_float) :=
  match assoc name (df_columns df) with
  | Some col => Return col
  | None => Raise (KeyError name)
  end.

(** [series.iloc[-1]]. *)
Definition iloc_last (col : list spec_float) : outcome spec_float :=
  match last col with
  | Some x => Return x
  | None => Raise (IndexError "single positional indexer is out-of-bounds")
  end.

(** [e.name] on a feed entry. *)
Definition entry_attr (e : entry) (name : string) : outcome pyval :=
  match assoc name e with
  | Some v => Return v
  | None => Raise (AttributeError name)
  end.

(** The body of the loop of [news], over the entries already sliced. *)
Fixpoint news_items (es : list entry) : outcome (list pyval) :=
  match es with
  | [] => Return []
  | e :: rest =>
      t ← entry_attr e "title";
      l ← entry_attr e "link";
      items ← news_items rest;
      Return (PyDict [("title", t); ("link", l);
                      ("published", dict_get e "published" PyNone)] :: items)
  end.

Section Program.
Context (E : Env).

(** [os.getenv(name, default)]. *)
Definition getenv (name default : string) : string :=
  match environ E !! name with
  | Some v => v
  | None => default
  end.

Definition GOOGLE_CLIENT_SECRETS : string :=
  getenv "GOOGLE_CLIENT_SECRETS" "client_secret.json".
Definition GOOGLE_REDIRECT : string :=
  getenv "GOOGLE_REDIRECT" "http://localhost:8000/oauth2callback".
Definition TMDB_API_KEY : string := getenv "TMDB_API_KEY" "".
Definition SPORTSDB_KEY : string := getenv "SPORTSDB_KEY" "1".

(** Module import: [os.makedirs(TOKENS_DIR, exist_ok=True)]. *)
Definition startup : M unit := makedirs TOKENS_DIR.

(** [await client.get(...)] / [await client.post(...)]. *)
Definition client_send (r : request) : M http_response :=
  call (EvHttp r) (httpx_send E r).

Definition raise_for_status (r : http_response) : M unit :=
  match resp_raise_for_status r with
  | Some e => raise e
  | None => mret tt
  end.

Definition json (r : http_response) : M pyval := lift (resp_json r).

(** *** Stock *)

Definition fetch_stock_price (symbol : string) : M pyval :=
  info ← call (EvTickerInfo symbol) (yf_info E symbol);
  let price := dict_get info "regularMarketPrice" PyNone in
  price ← (if is_none price then
             hist ← call (EvTickerHistory symbol "1d") (yf_history E symbol "1d");
             if negb (df_empty hist) then
               close ← lift (df_column hist "Close");
               c ← lift (iloc_last close);
               mret (PyFloat c)
             else mret price
           else mret price);
  mret (PyDict [("symbol", PyStr symbol);
                ("price", price);
                ("info_head", PyDict [("shortName", dict_get info "shortName" PyNone);
                                      ("currency", dict_get info "currency" PyNone)])]).

(** [fetch_stock_price] is an [async def]: calling it on the worker thread
    makes the coroutine, and that object is what the handler gets and
    returns. *)
Definition get_stock (symbol : string) : M retval :=
  c ← run_in_threadpool fetch_stock_price symbol;
  mret (Coroutine c).

(** *** Places *)

Definition around_clause (kind : string) (lat lon : spec_float)
    (radius : Z) (amenity : string) : string :=
  kind +:+ "(around:" +:+ str_of_int radius +:+ "," +:+ float_str E lat +:+ ","
       +:+ float_str E lon +:+ ")[amenity=" +:+ amenity +:+ "];".

Definition places_query (lat lon : spec_float) (radius : Z) (amenity : string)
  : string :=
  nl +:+ "    [out:json][timeout:25];" +:+ nl
     +:+ "    (" +:+ nl
     +:+ "      " +:+ around_clause "node" lat lon radius amenity +:+ nl
     +:+ "      " +:+ around_clause "way" lat lon radius amenity +:+ nl
     +:+ "      " +:+ around_clause "relation" lat lon radius amenity +:+ nl
     +:+ "    );" +:+ nl
     +:+ "    out center 20;" +:+ nl
     +:+ "    ".

Definition places_request (lat lon : spec_float) (radius : Z) (amenity : string)
  : request :=
  {| method := "POST";
     url := "https://overpass-api.de/api/interpreter";
     params := [];
     data := Some (places_query lat lon radius amenity);
     headers := [("Content-Type", "text/plain")];
     timeout := Some 30 |}.

Definition places (lat lon : spec_float) (radius : Z) (amenity : string)
  : M retval :=
  r ← client_send (places_request lat lon radius amenity);
  raise_for_status r;;
  v ← json r;
  mret (Content v).

(** *** Movies *)

(** [v.lower()]. *)
Definition py_lower (v : pyval) : outcome string :=
  match v with
  | PyStr s => Return (str_lower E s)
  | _ => Raise (AttributeError "lower")
  end.

(** The loop that looks the genre up; [PyNone] when nothing matches. *)
Fixpoint find_genre_id (genres : list pyval) (genre : string) : outcome pyval :=
  match genres with
  | [] => Return PyNone
  | g :: rest =>
      name ← py_getitem g "name";
      lname ← py_lower name;
      if String.eqb lname (str_lower E genre) then py_getitem g "id"
      else find_genre_id rest genre
  end.

Definition genre_list_request : request :=
  {| method := "GET";
     url := "https://api.themoviedb.org/3/genre/movie/list";
     params := [("api_key", PyStr TMDB_API_KEY)];
     data := None; headers := []; timeout := None |}.

Definition discover_params (genre_id : pyval) (page : Z) : list (string * pyval) :=
  let params := [("api_key", PyStr TMDB_API_KEY); ("page", PyInt page)] in
  if truthy genre_id then dict_set "with_genres" genre_id params else params.

Definition discover_request (genre_id : pyval) (page : Z) : request :=
  {| method := "GET";
     url := "https://api.themoviedb.org/3/discover/movie";
     params := discover_params genre_id page;
     data := None; headers := []; timeout := None |}.

Definition movies (genre : string) (page : Z) : M retval :=
  if str_truthy TMDB_API_KEY then
    genres_r ← client_send genre_list_request;
    raise_for_status genres_r;;
    listing ← json genres_r;
    genres ← lift (py_get listing "genres" (PyList []));
    items ← lift (py_iter genres);
    genre_id ← lift (find_genre_id items genre);
    r ← client_send (discover_request genre_id page);
    raise_for_status r;;
    v ← json r;
    mret (Content v)
  else mret (Content movies_fallback).

(** *** Sports *)

Definition sports_base : string := "https://www.thesportsdb.com/api/v1/json".

Definition sports_key : string :=
  if str_truthy SPORTSDB_KEY then SPORTSDB_KEY else "1".

Definition searchteams_request (team : string) : request :=
  {| method := "GET";
     url := sports_base +:+ "/" +:+ sports_key +:+ "/searchteams.php";
     params := [("t", PyStr team)];
     data := None; headers := []; timeout := None |}.

Definition search_all_teams_request (sport : string) : request :=
  {| method := "GET";
     url := sports_base +:+ "/" +:+ sports_key +:+ "/search_all_teams.php";
     params := [("l", PyStr sport)];
     data := None; headers := []; timeout := None |}.

Definition sports (sport team : string) : M retval :=
  if str_truthy team then
    r ← client_send (searchteams_request team);
    raise_for_status r;;
    v ← json r;
    mret (Content v)
  else
    r ← client_send (search_all_teams_request sport);
    raise_for_status r;;
    v ← json r;
    mret (Content v).

(** *** News *)

Definition rss_url (query : string) : string :=
  "https://news.google.com/rss/search?q=" +:+ replace_char " " "+" query
    +:+ "&hl=en-IN&gl=IN&ceid=IN:en".

Definition news (query : string) : M retval :=
  entries ← call (EvFeed (rss_url query)) (Return (feedparser_parse E (rss_url query)));
  items ← lift (news_items (take 12 entries));
  mret (Content (PyDict [("query", PyStr query); ("items", PyList items)])).

(** *** Google OAuth, Calendar and Gmail *)

(** [Flow.from_client_secrets_file(path, scopes=scopes)]. *)
Definition from_client_secrets_file (path : string) (scopes : list string) : M Flow :=
  content ← read_file path;
  match client_secrets_check E content with
  | Some e => raise e
  | None => mret {| client_config := content; flow_scopes := scopes;
                    redirect_uri := None |}
  end.

Definition with_redirect (f : Flow) (uri : string) : Flow :=
  {| client_config := client_config f; flow_scopes := flow_scopes f;
     redirect_uri := Some uri |}.

Definition auth_google : M retval :=
  flow ← from_client_secrets_file GOOGLE_CLIENT_SECRETS SCOPES;
  let flow := with_redirect flow GOOGLE_REDIRECT in
  let auth_url := (flow_authorization_url E flow
                     [("prompt", "consent"); ("access_type", "offline");
                      ("include_granted_scopes", "true")]).1 in
  mret (RedirectResponse auth_url).

Definition token_path : string := path_join TOKENS_DIR "google_token.json".

(** [open] empties the token file before [creds.to_json()] and [f.write]
    run; these two are taken to succeed, so the callbacks embedded here fail
    at the [open] or before it. *)
Definition oauth2callback (full_url : string) : M retval :=
  flow ← from_client_secrets_file GOOGLE_CLIENT_SECRETS SCOPES;
  let flow := with_redirect flow GOOGLE_REDIRECT in
  creds ← call (EvFetchToken flow full_url) (flow_fetch_token E flow full_url);
  open_w token_path;;
  f_write token_path (creds_to_json E creds);;
  mret (RedirectResponse "/?auth=ok").

(** [Credentials.from_authorized_user_file(path, scopes=scopes)]. *)
Definition from_authorized_user_file (path : string) (scopes : list string)
  : M Credentials :=
  content ← read_file path;
  lift (creds_from_authorized_user_info E content scopes).

Definition load_google_creds : M (option Credentials) :=
  there ← path_exists token_path;
  if negb there then mret None
  else
    c ← from_authorized_user_file token_path SCOPES;
    mret (Some c).

(** [build(service, version, credentials=creds)]. *)
Definition build (service version : string) (creds : Credentials) : M unit :=
  call (EvBuild service version creds) (google_build E service version creds).

(** [execute()] on a request made by a service object. *)
Definition execute (c : gcall) : M pyval :=
  call (EvExecute c) (google_execute E c).

Definition create_event (summary start_iso end_iso : string) : M retval :=
  creds ← load_google_creds;
  match creds with
  | None => mret not_authenticated
  | Some creds =>
      build "calendar" "v3" creds;;
      let event := PyDict [("summary", PyStr summary);
                           ("start", PyDict [("dateTime", PyStr start_iso)]);
                           ("end", PyDict [("dateTime", PyStr end_iso)])] in
      ev ← execute {| g_service := "calendar"; g_version := "v3"; g_creds := creds;
                      g_method := "events.insert";
                      g_kwargs := [("calendarId", PyStr "primary"); ("body", event)] |};
      mret (Content ev)
  end.

Definition gmail_threads : M retval :=
  creds ← load_google_creds;
  match creds with
  | None => mret not_authenticated
  | Some creds =>
      build "gmail" "v1" creds;;
      threads ← execute {| g_service := "gmail"; g_version := "v1"; g_creds := creds;
                           g_method := "users.threads.list";
                           g_kwargs := [("userId", PyStr "me");
                                        ("maxResults", PyInt 10)] |};
      mret (Content threads)
  end.

Definition gmail_send (to subject body : string) : M retval :=
  creds ← load_google_creds;
  match creds with
  | None => mret not_authenticated
  | Some creds =>
      build "gmail" "v1" creds;;
      raw ← lift (mime_raw E to subject body);
      sent ← execute {| g_service := "gmail"; g_version := "v1"; g_creds := creds;
                        g_method := "users.messages.send";
                        g_kwargs := [("userId", PyStr "me");
                                     ("body", PyDict [("raw", PyStr raw)])] |};
      mret (Content sent)
  end.
(** *** Weather, crypto and geocoding *)

Definition weather_request (lat lon : spec_float) : request :=
  {| method := "GET";
     url := "https://api.open-meteo.com/v1/forecast?latitude=" +:+ float_str E lat
              +:+ "&longitude=" +:+ float_str E lon +:+ "&current_weather=true";
     params := []; data := None; headers := []; timeout := Some 10 |}.

Definition get_weather (lat lon : spec_float) : M retval :=
  r ← client_send (weather_request lat lon);
  raise_for_status r;;
  v ← json r;
  mret (Content v).

Definition crypto_request (ids vs_currency : string) : request :=
  {| method := "GET";
     url := "https://api.coingecko.com/api/v3/simple/price";
     params := [("ids", PyStr ids); ("vs_currencies", PyStr vs_currency);
                ("include_24hr_change", PyStr "true")];
     data := None; headers := []; timeout := Some 10 |}.

Definition get_crypto (ids vs_currency : string) : M retval :=
  r ← client_send (crypto_request ids vs_currency);
  raise_for_status r;;
  v ← json r;
  mret (Content v).

Definition geocode_request (q : string) : request :=
  {| method := "GET";
     url := "https://nominatim.openstreetmap.org/search";
     params := [("q", PyStr q); ("format", PyStr "json"); ("limit", PyInt 5)];
     data := None;
     headers := [("User-Agent", "your-app/1.0 (your-email@example.com)")];
     timeout := Some 10 |}.

Definition geocode (q : string) : M retval :=
  r ← client_send (geocode_request q);
  raise_for_status r;;
  v ← json r;
  mret (Content v).
End Program.

(** The three endpoints that act with the stored credential, as one type of
    requests and the routing to their handlers. *)
Inductive delegated : Type :=
| CreateEvent (summary start_iso end_iso : string)
| GmailThreads
| GmailSend (to subject body : string).

Definition handle (E : Env) (c : delegated) : M retval :=
  match c with
  | CreateEvent summary start_iso end_iso => create_event E summary start_iso end_iso
  | GmailThreads => gmail_threads E
  | GmailSend to subject body => gmail_send E to subject body
  end.

(** The flow object [oauth2callback] works with, once the client secrets
    were read. *)
Definition callback_flow (E : Env) (secrets : string) : Flow :=
  with_redirect {| client_config := secrets; flow_scopes := SCOPES;
                   redirect_uri := None |} (GOOGLE_REDIRECT E).

(** [contains sub s]: [sub] occurs in [s] ([sub in s]). *)
Fixpoint has_prefix (p s : string) : bool :=
  match p, s with
  | EmptyString, _ => true
  | String a p', String b s' => Ascii.eqb a b && has_prefix p' s'
  | String _ _, EmptyString => false
  end.

Fixpoint contains (sub s : string) : bool :=
  has_prefix sub s ||
  match s with
  | EmptyString => false
  | String _ s' => contains sub s'
  end.

(** The object [fetch_stock_price] returns, for a given price. *)
Definition stock_reply (symbol : string) (info : list (string * pyval))
    (price : pyval) : pyval :=
  PyDict [("symbol", PyStr symbol);
          ("price", price);
          ("info_head", PyDict [("shortName", dict_get info "shortName" PyNone);
                                ("currency", dict_get info "currency" PyNone)])].


(** The item the handler makes from a feed entry that has both attributes. *)
Definition item_of (e : entry) (v : pyval) : Prop :=
  exists t l : pyval,
    assoc "title" e = Some t /\ assoc "link" e = Some l /\
    v = PyDict [("title", t); ("link", l);
                ("published", dict_get e "published" PyNone)].


(** An entry that has what the handler reads unguarded. *)
Definition has_title_and_link (e : entry) : Prop :=
  is_Some (assoc "title" e) /\ is_Some (assoc "link" e).

Section Genres.
Context (E : Env).

(** The genre lookup call answers with the list [items] of known genres. *)
Definition genre_listing (items : list pyval) : Prop :=
  exists (resp : http_response) (listing genres : pyval),
    httpx_send E (genre_list_request E) = Return resp /\
    resp_raise_for_status resp = None /\
    resp_json resp = Return listing /\
    py_get listing "genres" (PyList []) = Return genres /\
    py_iter genres = Return items.

(** A genre object whose name is, or is not, [genre] up to case. *)
Definition same_name (genre : string) (g : pyval) : Prop :=
  exists (d : list (string * pyval)) (name : string),
    g = PyDict d /\ assoc "name" d = Some (PyStr name) /\
    str_lower E name = str_lower E genre.

Definition other_name (genre : string) (g : pyval) : Prop :=
  exists (d : list (string * pyval)) (name : string),
    g = PyDict d /\ assoc "name" d = Some (PyStr name) /\
    str_lower E name <> str_lower E genre.
End Genres.

(** ** The routes

    The handlers that relay one upstream call, and all the routes of the
    application but the HTML front page. *)
Inductive proxy : Type :=
| PWeather (lat lon : spec_float)
| PCrypto (ids vs_currency : string)
| PGeocode (q : string)
| PPlaces (lat lon : spec_float) (radius : Z) (amenity : string)
| PSports (sport team : string).

Definition proxy_handler (E : Env) (p : proxy) : M retval :=
  match p with
  | PWeather lat lon => get_weather E lat lon
  | PCrypto ids vs_currency => get_crypto E ids vs_currency
  | PGeocode q => geocode E q
  | PPlaces lat lon radius amenity => places E lat lon radius amenity
  | PSports sport team => sports E sport team
  end.

(** The request each of them sends. *)
Definition proxy_request (E : Env) (p : proxy) : request :=
  match p with
  | PWeather lat lon => weather_request E lat lon
  | PCrypto ids vs_currency => crypto_request ids vs_currency
  | PGeocode q => geocode_request q
  | PPlaces lat lon radius amenity => places_request E lat lon radius amenity
  | PSports sport team =>
      if str_truthy team then searchteams_request E team
      else search_all_teams_request E sport
  end.

(** What comes back from one upstream call: the client's exception, else
    the status exception, else the decoded body. *)
Definition relayed (E : Env) (r : request) : outcome retval :=
  resp ← httpx_send E r;
  match resp_raise_for_status resp with
  | Some e => Raise e
  | None => v ← resp_json resp; Return (Content v)
  end.

Inductive api : Type :=
| Proxy (p : proxy)
| Stock (symbol : string)
| Movies (genre : string) (page : Z)
| News (query : string)
| AuthGoogle
| OAuth2Callback (full_url : string)
| Delegated (d : delegated).

Definition route (E : Env) (a : api) : M retval :=
  match a with
  | Proxy p => proxy_handler E p
  | Stock symbol => get_stock E symbol
  | Movies genre page => movies E genre page
  | News query => news E query
  | AuthGoogle => auth_google E
  | OAuth2Callback full_url => oauth2callback E full_url
  | Delegated d => handle E d
  end.

Definition is_callback (a : api) : bool :=
  match a with
  | OAuth2Callback _ => true
  | _ => false
  end.

(** The world after a sequence of requests, served one after the other. *)
Fixpoint run_all (E : Env) (calls : list api) (w : World) : World :=
  match calls with
  | [] => w
  | a :: rest => run_all E rest (route E a w).2
  end.

(** The call on the provider each delegated-access endpoint makes. *)
Definition provider_call (d : delegated) (creds : Credentials) (raw : string) : gcall :=
  match d with
  | CreateEvent summary start_iso end_iso =>
      {| g_service := "calendar"; g_version := "v3"; g_creds := creds;
         g_method := "events.insert";
         g_kwargs := [("calendarId", PyStr "primary");
                      ("body", PyDict [("summary", PyStr summary);
                                       ("start", PyDict [("dateTime", PyStr start_iso)]);
                                       ("end", PyDict [("dateTime", PyStr end_iso)])])] |}
  | GmailThreads =>
      {| g_service := "gmail"; g_version := "v1"; g_creds := creds;
         g_method := "users.threads.list";
         g_kwargs := [("userId", PyStr "me"); ("maxResults", PyInt 10)] |}
  | GmailSend _ _ _ =>
      {| g_service := "gmail"; g_version := "v1"; g_creds := creds;
         g_method := "users.messages.send";
         g_kwargs := [("userId", PyStr "me");
                      ("body", PyDict [("raw", PyStr raw)])] |}
  end.

(** The encoded message of [gmail_send]; the other two endpoints encode
    nothing. *)
Definition encoded (E : Env) (d : delegated) : outcome string :=
  match d with
  | GmailSend to subject body => mime_raw E to subject body
  | _ => Return ""
  end.

(** ** A concrete environment

    One behaviour of the outside world, to run the handlers on. *)
Module Demo.

Definition lower_ascii (c : ascii) : ascii :=
  let n := nat_of_ascii c in
  if (Nat.leb 65 n && Nat.leb n 90)%bool then ascii_of_nat (n + 32) else c.

Fixpoint lower (s : string) : string :=
  match s with
  | EmptyString => EmptyString
  | String c rest => String (lower_ascii c) (lower rest)
  end.

(** Integral floats print as [str] has them; the rest is not needed here. *)
Definition float_text (f : spec_float) : string :=
  match f with
  | S754_zero false => "0.0"
  | S754_zero true => "-0.0"
  | S754_infinity false => "inf"
  | S754_infinity true => "-inf"
  | S754_nan => "nan"
  | S754_finite s m e =>
      (if s then "-" else "") +:+ str_of_int (Z.pos m * 2 ^ e) +:+ ".0"
  end.

Definition creds : Credentials :=
  {| token := "ya29.token"; refresh_token := Some "1//refresh";
     scopes := SCOPES; expiry := None |}.

Definition genres : pyval :=
  PyDict [("genres", PyList [
    PyDict [("id", PyInt 18); ("name", PyStr "Drama")];
    PyDict [("id", PyInt 0); ("name", PyStr "Action")];
    PyDict [("id", PyInt 35); ("name", PyStr "Comedy")] ])].

Definition answer (v : pyval) : outcome http_response :=
  Return {| resp_raise_for_status := None; resp_json := Return v |}.

Definition send (r : request) : outcome http_response :=
  if String.eqb (url r) "https://api.themoviedb.org/3/genre/movie/list"
  then answer genres
  else if String.eqb (url r) "https://overpass-api.de/api/interpreter"
  then Return {| resp_raise_for_status :=
                   Some (LibraryError "httpx" "HTTPStatusError 429");
                 resp_json := Raise (ValueError "no body") |}
  else answer (PyDict [("results", PyList [])]).

Definition story (n : Z) : entry :=
  [("title", PyStr ("Story " +:+ str_of_int n));
   ("link", PyStr ("https://news.example/" +:+ str_of_int n))].

Definition feed (feed_url : string) : list entry :=
  (story 1 ++ [("published", PyStr "Tue, 03 Nov 2026 08:00:00 GMT")])%list
    :: map story [2; 3; 4; 5; 6; 7; 8; 9; 10; 11; 12; 13; 14].

Definition env (vars : gmap string string) : Env :=
  {| environ := vars;
     str_lower := lower;
     float_str := float_text;
     httpx_send := send;
     yf_info := fun _ => Return [("shortName", PyStr "Apple Inc.");
                                 ("currency", PyStr "USD")];
     yf_history := fun _ _ =>
       Return {| df_rows := 1;
                 df_columns := [("Open", [S754_finite false 188 0]);
                                ("Close", [S754_finite false 189 0])] |};
     feedparser_parse := feed;
     client_secrets_check := fun _ => None;
     flow_authorization_url := fun _ _ =>
       ("https://accounts.google.com/o/oauth2/auth", "state");
     flow_fetch_token := fun _ full_url =>
       if contains "code=4/valid" full_url then Return creds
       else Raise (LibraryError "oauthlib" "invalid_grant");
     creds_to_json := fun c => token c;
     creds_from_authorized_user_info := fun content scopes =>
       if String.eqb content ""
       then Raise (ValueError "Expecting value: line 1 column 1 (char 0)")
       else Return {| token := content; refresh_token := None;
                      scopes := scopes; expiry := None |};
     google_build := fun _ _ _ => Return tt;
     google_execute := fun _ => Return (PyDict [("id", PyStr "r1")]);
     mime_raw := fun _ _ _ => Return "VG86IGE=" |}.

(** The defaults, and a configuration with a movie key. *)
Definition plain : Env := env ∅.
Definition keyed : Env := env {[ "TMDB_API_KEY" := "k3y" ]}.

(** The working directory before the first request, once the module was
    imported: the client secrets and the token directory. *)
Definition fresh : World :=
  {| fs := {[ "client_secret.json" := File "{}"; "tokens" := Dir ]};
     trace := [] |}.

(** The same with an empty token file. *)
Definition broken : World :=
  {| fs := <[ "tokens/google_token.json" := File "" ]> (fs fresh);
     trace := [] |}.

End Demo.

(** ** Variations of the concrete environment *)
Module Cases.

Definition with_send (E : Env) (send : request -> outcome http_response) : Env :=
  {| environ := environ E; str_lower := str_lower E; float_str := float_str E;
     httpx_send := send;
     yf_info := yf_info E; yf_history := yf_history E;
     feedparser_parse := feedparser_parse E;
     client_secrets_check := client_secrets_check E;
     flow_authorization_url := flow_authorization_url E;
     flow_fetch_token := flow_fetch_token E;
     creds_to_json := creds_to_json E;
     creds_from_authorized_user_info := creds_from_authorized_user_info E;
     google_build := google_build E; google_execute := google_execute E;
     mime_raw := mime_raw E |}.

Definition with_feed (E : Env) (feed : string -> list entry) : Env :=
  {| environ := environ E; str_lower := str_lower E; float_str := float_str E;
     httpx_send := httpx_send E;
     yf_info := yf_info E; yf_history := yf_history E;
     feedparser_parse := feed;
     client_secrets_check := client_secrets_check E;
     flow_authorization_url := flow_authorization_url E;
     flow_fetch_token := flow_fetch_token E;
     creds_to_json := creds_to_json E;
     creds_from_authorized_user_info := creds_from_authorized_user_info E;
     google_build := google_build E; google_execute := google_execute E;
     mime_raw := mime_raw E |}.

Definition with_info (E : Env) (info : string -> outcome (list (string * pyval))) : Env :=
  {| environ := environ E; str_lower := str_lower E; float_str := float_str E;
     httpx_send := httpx_send E;
     yf_info := info; yf_history := yf_history E;
     feedparser_parse := feedparser_parse E;
     client_secrets_check := client_secrets_check E;
     flow_authorization_url := flow_authorization_url E;
     flow_fetch_token := flow_fetch_token E;
     creds_to_json := creds_to_json E;
     creds_from_authorized_user_info := creds_from_authorized_user_info E;
     google_build := google_build E; google_execute := google_execute E;
     mime_raw := mime_raw E |}.

Definition with_exchange (E : Env) (exchange : Flow -> string -> outcome Credentials)
  : Env :=
  {| environ := environ E; str_lower := str_lower E; float_str := float_str E;
     httpx_send := httpx_send E;
     yf_info := yf_info E; yf_history := yf_history E;
     feedparser_parse := feedparser_parse E;
     client_secrets_check := client_secrets_check E;
     flow_authorization_url := flow_authorization_url E;
     flow_fetch_token := exchange;
     creds_to_json := creds_to_json E;
     creds_from_authorized_user_info := creds_from_authorized_user_info E;
     google_build := google_build E; google_execute := google_execute E;
     mime_raw := mime_raw E |}.

Definition with_mime (E : Env) (mime : string -> string -> string -> outcome string)
  : Env :=
  {| environ := environ E; str_lower := str_lower E; float_str := float_str E;
     httpx_send := httpx_send E;
     yf_info := yf_info E; yf_history := yf_history E;
     feedparser_parse := feedparser_parse E;
     client_secrets_check := client_secrets_check E;
     flow_authorization_url := flow_authorization_url E;
     flow_fetch_token := flow_fetch_token E;
     creds_to_json := creds_to_json E;
     creds_from_authorized_user_info := creds_from_authorized_user_info E;
     google_build := google_build E; google_execute := google_execute E;
     mime_raw := mime |}.

(** The movie service is down. *)
Definition lookup_down : Env :=
  with_send Demo.keyed (fun _ => Raise (LibraryError "httpx" "ConnectTimeout")).

(** The movie service answers with an error object and a good status. *)
Definition no_genres : Env :=
  with_send Demo.keyed
    (fun _ => Demo.answer (PyDict [("status_message", PyStr "Invalid API key")])).

(** A genre list whose first object has no name. *)
Definition nameless : Env :=
  with_send Demo.keyed
    (fun _ => Demo.answer
                (PyDict [("genres", PyList [PyDict [("id", PyInt 28)];
                                            PyDict [("id", PyInt 18);
                                                    ("name", PyStr "Drama")]])])).

(** The same twelve stories, then an entry with nothing in it. *)
Definition ragged_feed : Env :=
  with_feed Demo.plain (fun u => take 12 (Demo.feed u) ++ [[]])%list.

(** A feed whose only entry has a link and no title. *)
Definition untitled_feed : Env :=
  with_feed Demo.plain (fun _ => [[("link", PyStr "https://news.example/1")]]).

(** A quote whose live price is zero. *)
Definition zero_quote : Env :=
  with_info Demo.plain
    (fun _ => Return [("regularMarketPrice", PyInt 0); ("currency", PyStr "USD")]).

(** yfinance cannot reach its source. *)
Definition no_quote : Env :=
  with_info Demo.plain (fun _ => Raise (LibraryError "yfinance" "ConnectionError")).

(** Each code is exchanged for a credential that carries it. *)
Definition any_code : Env :=
  with_exchange Demo.plain
    (fun _ full_url => Return {| token := full_url; refresh_token := Some "1//r";
                                 scopes := SCOPES; expiry := None |}).

(** The message cannot be encoded. *)
Definition bad_message : Env :=
  with_mime Demo.plain (fun _ _ _ => Raise (ValueError "header value has a newline")).

(** A stored token. *)
Definition signed_in : World :=
  {| fs := <[ "tokens/google_token.json" := File "ya29.token" ]> (fs Demo.fresh);
     trace := [] |}.

Definition stored : Credentials :=
  {| token := "ya29.token"; refresh_token := None; scopes := SCOPES; expiry := None |}.

(** Nothing on disk, and the client secrets alone. *)
Definition empty : World := {| fs := ∅; trace := [] |}.
Definition unpacked : World :=
  {| fs := {[ "client_secret.json" := File "{}" ]}; trace := [] |}.

End Cases.

(** * Properties *)

(** Unfolds the monad operations so that a handler runs by [simpl]. *)
Ltac run :=
  unfold mbind, mret, M_bind, M_ret, outcome_bind, outcome_ret,
         call, emit, lift, raise in *;
  simpl in *.

(** Splits on a scrutinee of the goal that is not itself a [match]. *)
Ltac case_scrutinee :=
  match goal with
  | |- context [match ?x with _ => _ end] =>
      lazymatch x with
      | context [match _ with _ => _ end] => fail
      | _ => destruct x eqn:?
      end
  end.

Lemma token_path_eq : token_path = "tokens/google_token.json".
Proof. reflexivity. Qed.

Lemma dirname_token_path : dirname token_path = TOKENS_DIR.
Proof. reflexivity. Qed.

Section Loader.
Context (E : Env).

Lemma load_absent (w : World) :
  fs w !! token_path = None ->
  load_google_creds E w = (Return None, w).
Proof.
  intros H. unfold load_google_creds, path_exists. run.
  rewrite H. rewrite bool_decide_eq_false_2; [reflexivity|].
  intros [x Hx]; discriminate.
Qed.

Lemma load_file (w : World) (content : string) :
  fs w !! token_path = Some (File content) ->
  load_google_creds E w =
    (match creds_from_authorized_user_info E content SCOPES with
     | Return c => Return (Some c)
     | Raise e => Raise e
     end, w).
Proof.
  intros H. unfold load_google_creds, path_exists, from_authorized_user_file, read_file.
  run. rewrite bool_decide_eq_true_2 by (rewrite H; eauto). simpl.
  rewrite !H.
  destruct (creds_from_authorized_user_info E content SCOPES); reflexivity.
Qed.

Lemma load_dir (w : World) :
  fs w !! token_path = Some Dir ->
  load_google_creds E w = (Raise (IsADirectoryError token_path), w).
Proof.
  intros H. unfold load_google_creds, path_exists, from_authorized_user_file, read_file.
  run. rewrite bool_decide_eq_true_2 by (rewrite H; eauto). simpl.
  rewrite !H. reflexivity.
Qed.

Lemma handle_absent (w : World) (c : delegated) :
  load_google_creds E w = (Return None, w) ->
  handle E c w = (Return not_authenticated, w).
Proof.
  intros H. destruct c; unfold handle, create_event, gmail_threads, gmail_send;
    run; rewrite H; reflexivity.
Qed.

Lemma handle_raise (w : World) (c : delegated) (e : exn) :
  load_google_creds E w = (Raise e, w) ->
  handle E c w = (Raise e, w).
Proof.
  intros H. destruct c; unfold handle, create_event, gmail_threads, gmail_send;
    run; rewrite H; reflexivity.
Qed.
End Loader.

(** C1: with no token file, each of the three delegated-access endpoints
    answers 401 with the body [{"error": "not_authenticated"}] and leaves the
    world, and so the log of outbound calls, as it was. *)
Theorem not_authenticated_without_token (E : Env) (w : World) (c : delegated) :
  fs w !! token_path = None ->
  handle E c w = (Return not_authenticated, w) /\
  serve (handle E c) w =
    ({| status := 401;
        payload := Some (PyDict [("error", PyStr "not_authenticated")]);
        location := None |}, w) /\
  trace (handle E c w).2 = trace w.
Proof.
  intros H.
  pose proof (handle_absent E w c (load_absent E w H)) as Hh.
  unfold serve. rewrite Hh. simpl. auto.
Qed.

(** C10: the loader returns [None] exactly when nothing exists at the token
    path; when a token file is there and does not deserialize, the loader
    raises, and so does every delegated-access endpoint: the reply is a 500,
    not the 401, and no outbound call is made. *)
Theorem loader_none_iff_absent (E : Env) (w : World) :
  ((load_google_creds E w).1 = Return None <-> fs w !! token_path = None) /\
  (forall (content : string) (e : exn),
      fs w !! token_path = Some (File content) ->
      creds_from_authorized_user_info E content SCOPES = Raise e ->
      load_google_creds E w = (Raise e, w) /\
      forall c : delegated,
        handle E c w = (Raise e, w) /\
        serve (handle E c) w = (server_error, w) /\
        status (serve (handle E c) w).1 <> 401).
Proof.
  split.
  - split.
    + destruct (fs w !! token_path) as [[content|]|] eqn:Hfs; [| |reflexivity].
      * rewrite (load_file E w content Hfs). simpl.
        destruct (creds_from_authorized_user_info E content SCOPES); discriminate.
      * rewrite (load_dir E w Hfs). discriminate.
    + intros H. rewrite (load_absent E w H). reflexivity.
  - intros content e Hfs Hbad.
    assert (Hl : load_google_creds E w = (Raise e, w)).
    { rewrite (load_file E w content Hfs), Hbad. reflexivity. }
    split; [exact Hl|]. intros c.
    pose proof (handle_raise E w c e Hl) as Hh.
    unfold serve. rewrite Hh. simpl. repeat split. discriminate.
Qed.

Section Callback.
Context (E : Env).

Lemma flow_from_secrets (w : World) (secrets : string) :
  fs w !! GOOGLE_CLIENT_SECRETS E = Some (File secrets) ->
  client_secrets_check E secrets = None ->
  from_client_secrets_file E (GOOGLE_CLIENT_SECRETS E) SCOPES w =
    (Return {| client_config := secrets; flow_scopes := SCOPES;
               redirect_uri := None |}, w).
Proof.
  intros Hfs Hok. unfold from_client_secrets_file, read_file. run.
  rewrite !Hfs, Hok. reflexivity.
Qed.

Lemma callback_exchange_fails (w : World) (secrets full_url : string) (e : exn) :
  fs w !! GOOGLE_CLIENT_SECRETS E = Some (File secrets) ->
  client_secrets_check E secrets = None ->
  flow_fetch_token E (callback_flow E secrets) full_url = Raise e ->
  oauth2callback E full_url w =
    (Raise e,
     {| fs := fs w;
        trace := trace w ++ [EvFetchToken (callback_flow E secrets) full_url] |}).
Proof.
  intros Hfs Hok Hx. unfold oauth2callback.
  unfold mbind at 1, M_bind. rewrite (flow_from_secrets w secrets Hfs Hok).
  fold (callback_flow E secrets). run. rewrite Hx. reflexivity.
Qed.

Lemma callback_exchange_succeeds (w : World) (secrets full_url : string)
    (c : Credentials) :
  fs w !! GOOGLE_CLIENT_SECRETS E = Some (File secrets) ->
  client_secrets_check E secrets = None ->
  flow_fetch_token E (callback_flow E secrets) full_url = Return c ->
  fs w !! TOKENS_DIR = Some Dir ->
  fs w !! token_path <> Some Dir ->
  oauth2callback E full_url w =
    (Return (RedirectResponse "/?auth=ok"),
     {| fs := <[token_path := File (creds_to_json E c)]> (fs w);
        trace := (trace w ++ [EvFetchToken (callback_flow E secrets) full_url])%list |}).
Proof.
  intros Hfs Hok Hx Hdir Hnd. unfold oauth2callback.
  unfold mbind at 1, M_bind. rewrite (flow_from_secrets w secrets Hfs Hok).
  fold (callback_flow E secrets).
  unfold mbind at 1, M_bind. unfold call, emit, lift. unfold mbind at 1, M_bind.
  rewrite Hx.
  unfold mbind at 1, M_bind. unfold open_w, parent_ok.
  rewrite dirname_token_path. cbn [fs trace].
  change (String.eqb TOKENS_DIR "") with false. cbv iota.
  rewrite Hdir.
  destruct (fs w !! token_path) as [[old|]|] eqn:Hold;
    [| congruence |]; unfold mbind, M_bind, f_write, mret, M_ret; cbn [fs trace];
    rewrite insert_insert_eq; reflexivity.
Qed.

(** After a successful import the token directory is there. *)
Lemma startup_makes_tokens_dir (w : World) :
  (startup w).1 = Return tt ->
  fs (startup w).2 !! TOKENS_DIR = Some Dir.
Proof.
  unfold startup, makedirs.
  destruct (fs w !! TOKENS_DIR) as [[content|]|] eqn:Hd; simpl;
    [discriminate | intros _; exact Hd | intros _; apply lookup_insert_eq].
Qed.

Lemma handle_present (w : World) (c : Credentials) (d : delegated) :
  load_google_creds E w = (Return (Some c), w) ->
  (handle E d w).1 <> Return not_authenticated /\
  fs (handle E d w).2 = fs w /\
  exists (service version : string) (rest : list event),
    trace (handle E d w).2 = (trace w ++ EvBuild service version c :: rest)%list.
Proof.
  intros Hl.
  destruct d; unfold handle, create_event, gmail_threads, gmail_send, build, execute;
    run; rewrite Hl.
  - destruct (google_build E "calendar" "v3" c); simpl.
    + destruct (google_execute E _); simpl;
        (split; [discriminate|split; [reflexivity|]]);
        eexists _, _, _; rewrite <- app_assoc; reflexivity.
    + split; [discriminate|split; [reflexivity|]]. eexists _, _, _; reflexivity.
  - destruct (google_build E "gmail" "v1" c); simpl.
    + destruct (google_execute E _); simpl;
        (split; [discriminate|split; [reflexivity|]]);
        eexists _, _, _; rewrite <- app_assoc; reflexivity.
    + split; [discriminate|split; [reflexivity|]]. eexists _, _, _; reflexivity.
  - destruct (google_build E "gmail" "v1" c); simpl.
    + destruct (mime_raw E to subject body); simpl.
      * destruct (google_execute E _); simpl;
          (split; [discriminate|split; [reflexivity|]]);
          eexists _, _, _; rewrite <- app_assoc; reflexivity.
      * split; [discriminate|split; [reflexivity|]]. eexists _, _, _; reflexivity.
    + split; [discriminate|split; [reflexivity|]]. eexists _, _, _; reflexivity.
Qed.
End Callback.

(** C2: when the code exchange of [/oauth2callback] raises, the request
    fails with that exception (a 500), the file system is as before, so no
    token file was written; with no token file before, every later
    delegated-access call is still answered 401 without an outbound call. *)
Theorem failed_exchange_keeps_store (E : Env) (w : World)
    (secrets full_url : string) (e : exn) :
  fs w !! GOOGLE_CLIENT_SECRETS E = Some (File secrets) ->
  client_secrets_check E secrets = None ->
  flow_fetch_token E (callback_flow E secrets) full_url = Raise e ->
  let w' := (oauth2callback E full_url w).2 in
  (oauth2callback E full_url w).1 = Raise e /\
  (serve (oauth2callback E full_url) w).1 = server_error /\
  fs w' = fs w /\
  trace w' = (trace w ++ [EvFetchToken (callback_flow E secrets) full_url])%list /\
  (fs w !! token_path = None ->
   forall c : delegated, handle E c w' = (Return not_authenticated, w')).
Proof.
  intros Hfs Hok Hx. unfold serve. cbn zeta.
  rewrite (callback_exchange_fails E w secrets full_url e Hfs Hok Hx). simpl.
  repeat split.
  intros Habs c. apply handle_absent, load_absent. exact Habs.
Qed.

(** C3: when the exchange returns a credential, [/oauth2callback] redirects
    to [/?auth=ok] and the token file holds the serialized credential,
    whatever was there before; if the library reads back what it wrote, the
    loader then returns a credential and every delegated-access endpoint goes
    on to build its service with it instead of answering 401. *)
Theorem callback_then_load_roundtrip (E : Env) (w : World)
    (secrets full_url : string) (c c' : Credentials) :
  fs w !! GOOGLE_CLIENT_SECRETS E = Some (File secrets) ->
  client_secrets_check E secrets = None ->
  flow_fetch_token E (callback_flow E secrets) full_url = Return c ->
  fs w !! TOKENS_DIR = Some Dir ->
  fs w !! token_path <> Some Dir ->
  creds_from_authorized_user_info E (creds_to_json E c) SCOPES = Return c' ->
  let w' := (oauth2callback E full_url w).2 in
  (oauth2callback E full_url w).1 = Return (RedirectResponse "/?auth=ok") /\
  fs w' = <[token_path := File (creds_to_json E c)]> (fs w) /\
  load_google_creds E w' = (Return (Some c'), w') /\
  forall d : delegated,
    (handle E d w').1 <> Return not_authenticated /\
    exists (service version : string) (rest : list event),
      trace (handle E d w').2 = (trace w' ++ EvBuild service version c' :: rest)%list.
Proof.
  intros Hfs Hok Hx Hdir Hnd Hrt. cbn zeta.
  rewrite (callback_exchange_succeeds E w secrets full_url c Hfs Hok Hx Hdir Hnd).
  cbn [fst snd].
  set (w' := {| fs := _; trace := _ |}).
  assert (Hl : load_google_creds E w' = (Return (Some c'), w')).
  { rewrite (load_file E w' (creds_to_json E c)).
    - rewrite Hrt. reflexivity.
    - subst w'. cbn [fs]. apply lookup_insert_eq. }
  repeat split; [exact Hl| |].
  - apply (handle_present E w' c' d Hl).
  - apply (handle_present E w' c' d Hl).
Qed.

(** ** Stock *)

Section Stock.
Context (E : Env).

(** The coroutine, when something runs it: a live price is passed on. *)
Lemma fetch_stock_price_live (symbol : string) (info : list (string * pyval))
    (w : World) :
  yf_info E symbol = Return info ->
  is_none (dict_get info "regularMarketPrice" PyNone) = false ->
  fetch_stock_price E symbol w =
    (Return (stock_reply symbol info (dict_get info "regularMarketPrice" PyNone)),
     {| fs := fs w; trace := trace w ++ [EvTickerInfo symbol] |}).
Proof.
  intros Hi Hp. unfold fetch_stock_price. run. rewrite Hi. simpl.
  rewrite Hp. reflexivity.
Qed.

(** The coroutine, when something runs it: without a live price the last
    daily close is the price. *)
Lemma fetch_stock_price_last_close (symbol : string)
    (info : list (string * pyval)) (hist : DataFrame)
    (col : list spec_float) (c : spec_float) (w : World) :
  yf_info E symbol = Return info ->
  dict_get info "regularMarketPrice" PyNone = PyNone ->
  yf_history E symbol "1d" = Return hist ->
  df_empty hist = false ->
  assoc "Close" (df_columns hist) = Some col ->
  last col = Some c ->
  fetch_stock_price E symbol w =
    (Return (stock_reply symbol info (PyFloat c)),
     {| fs := fs w;
        trace := trace w ++ [EvTickerInfo symbol; EvTickerHistory symbol "1d"] |}).
Proof.
  intros Hi Hp Hh He Hc Hl. unfold fetch_stock_price, df_column, iloc_last. run.
  rewrite Hi. simpl. rewrite Hp. simpl. rewrite Hh. simpl. rewrite He. simpl.
  rewrite Hc. simpl. rewrite Hl. simpl. rewrite <- app_assoc. reflexivity.
Qed.

(** The coroutine, when something runs it: with neither source the price
    is [None]. *)
Lemma fetch_stock_price_null (symbol : string)
    (info : list (string * pyval)) (hist : DataFrame) (w : World) :
  yf_info E symbol = Return info ->
  dict_get info "regularMarketPrice" PyNone = PyNone ->
  yf_history E symbol "1d" = Return hist ->
  df_empty hist = true ->
  fetch_stock_price E symbol w =
    (Return (stock_reply symbol info PyNone),
     {| fs := fs w;
        trace := trace w ++ [EvTickerInfo symbol; EvTickerHistory symbol "1d"] |}).
Proof.
  intros Hi Hp Hh He. unfold fetch_stock_price. run.
  rewrite Hi. simpl. rewrite Hp. simpl. rewrite Hh. simpl. rewrite He. simpl.
  rewrite <- app_assoc. reflexivity.
Qed.
End Stock.

(** C4: [GET /api/stock] never returns the object with [symbol], [price] and
    [info_head].  For every symbol and every behaviour of yfinance the
    handler returns the coroutine that [fetch_stock_price] makes, without
    running it: yfinance is not called and the reply is a 500. *)
Theorem get_stock_returns_unawaited_coroutine (E : Env) (symbol : string) (w : World) :
  get_stock E symbol w = (Return (Coroutine (fetch_stock_price E symbol)), w) /\
  serve (get_stock E symbol) w = (server_error, w) /\
  (forall v : pyval, (get_stock E symbol w).1 <> Return (Content v)) /\
  trace (get_stock E symbol w).2 = trace w.
Proof.
  unfold serve, get_stock, run_in_threadpool. run.
  repeat split. intros v. discriminate.
Qed.

(** ** Movies *)

Lemma no_key_in_environment (E : Env) :
  environ E !! "TMDB_API_KEY" = None -> TMDB_API_KEY E = "".
Proof. intros H. unfold TMDB_API_KEY, getenv. rewrite H. reflexivity. Qed.

(** C5: with no movie key configured, [GET /api/movies] returns the fixed
    list of two entries for every [genre] and [page], with status 200 and
    without an outbound call. *)
Theorem movies_fallback_without_key (E : Env) (genre : string) (page : Z) (w : World) :
  TMDB_API_KEY E = "" ->
  movies E genre page w = (Return (Content movies_fallback), w) /\
  serve (movies E genre page) w =
    ({| status := 200; payload := Some movies_fallback; location := None |}, w) /\
  (exists a b : pyval, movies_fallback = PyDict [("results", PyList [a; b])]) /\
  trace (movies E genre page w).2 = trace w.
Proof.
  intros Hk. unfold serve, movies. rewrite Hk. simpl.
  repeat split. eexists _, _. reflexivity.
Qed.

(** ** Sports *)

Lemma str_truthy_nonempty (s : string) : s <> "" -> str_truthy s = true.
Proof. intros H. unfold str_truthy. destruct s; [congruence | reflexivity]. Qed.

(** C9: with a non-empty [team], [GET /api/sports] does the same for any
    two values of [sport]: the one outbound request is the team search, and
    outcome and world coincide.  With an empty [team] the one outbound
    request lists the teams of the league [sport]. *)
Theorem sports_ignores_sport_when_team_given (E : Env) (team : string) (w : World) :
  (team <> "" ->
   forall sport1 sport2 : string,
     sports E sport1 team w = sports E sport2 team w /\
     serve (sports E sport1 team) w = serve (sports E sport2 team) w /\
     trace (sports E sport1 team w).2 =
       (trace w ++ [EvHttp (searchteams_request E team)])%list) /\
  (team = "" ->
   forall sport : string,
     trace (sports E sport team w).2 =
       (trace w ++ [EvHttp (search_all_teams_request E sport)])%list /\
     params (search_all_teams_request E sport) = [("l", PyStr sport)]).
Proof.
  split.
  - intros Hne sport1 sport2. unfold serve, sports.
    rewrite (str_truthy_nonempty team Hne).
    repeat split. unfold client_send, raise_for_status, json. run.
    destruct (httpx_send E (searchteams_request E team)) as [r|e]; simpl; [|reflexivity].
    destruct (resp_raise_for_status r); simpl; [reflexivity|].
    destruct (resp_json r); reflexivity.
  - intros -> sport. split; [|reflexivity].
    unfold sports, client_send, raise_for_status, json. run.
    destruct (httpx_send E (search_all_teams_request E sport)) as [r|e]; simpl; [|reflexivity].
    destruct (resp_raise_for_status r); simpl; [reflexivity|].
    destruct (resp_json r); reflexivity.
Qed.

Section GenreLookup.
Context (E : Env).

Lemma find_genre_id_skip (genre : string) (pre rest : list pyval) :
  Forall (other_name E genre) pre ->
  find_genre_id E (pre ++ rest) genre = find_genre_id E rest genre.
Proof.
  induction 1 as [|g pre Hg _ IH]; [reflexivity|].
  destruct Hg as (d & name & -> & Hname & Hneq).
  cbn [app find_genre_id py_getitem]. rewrite Hname.
  unfold mbind, outcome_bind. cbn [py_lower].
  apply String.eqb_neq in Hneq. rewrite Hneq. exact IH.
Qed.

Lemma find_genre_id_none (genre : string) (items : list pyval) :
  Forall (other_name E genre) items ->
  find_genre_id E items genre = Return PyNone.
Proof.
  intros H. rewrite <- (app_nil_r items).
  rewrite (find_genre_id_skip genre items [] H). reflexivity.
Qed.

Lemma find_genre_id_first (genre : string) (pre post : list pyval)
    (d : list (string * pyval)) :
  Forall (other_name E genre) pre ->
  same_name E genre (PyDict d) ->
  find_genre_id E (pre ++ PyDict d :: post) genre = py_getitem (PyDict d) "id".
Proof.
  intros Hpre (d' & name & Hd & Hname & Heq). injection Hd as <-.
  rewrite (find_genre_id_skip genre pre _ Hpre).
  cbn [find_genre_id py_getitem]. rewrite Hname.
  unfold mbind, outcome_bind. cbn [py_lower].
  apply String.eqb_eq in Heq. rewrite Heq. reflexivity.
Qed.

(** With a key and a genre list, the one further request is the discovery
    with the id the loop found, and its answer is the handler's. *)
Lemma movies_with_key (genre : string) (page : Z) (items : list pyval)
    (gid : pyval) (w : World) :
  TMDB_API_KEY E <> "" ->
  genre_listing E items ->
  find_genre_id E items genre = Return gid ->
  trace (movies E genre page w).2 =
    (trace w ++ [EvHttp (genre_list_request E);
                 EvHttp (discover_request E gid page)])%list /\
  (movies E genre page w).1 =
    (r ← httpx_send E (discover_request E gid page);
     match resp_raise_for_status r with
     | Some e => Raise e
     | None => v ← resp_json r; Return (Content v)
     end).
Proof.
  intros Hk (resp & listing & genres & Hsend & Hst & Hjs & Hget & Hit) Hfind.
  unfold movies. rewrite (str_truthy_nonempty _ Hk).
  unfold client_send, raise_for_status, json. run.
  rewrite Hsend. simpl. rewrite Hst. simpl. rewrite Hjs. simpl.
  rewrite Hget. simpl. rewrite Hit. simpl. rewrite Hfind. simpl.
  destruct (httpx_send E (discover_request E gid page)) as [r|e]; simpl.
  - destruct (resp_raise_for_status r); simpl.
    + rewrite <- app_assoc. split; reflexivity.
    + destruct (resp_json r); simpl; rewrite <- app_assoc; split; reflexivity.
  - rewrite <- app_assoc. split; reflexivity.
Qed.

(** A genre that matches no known name: discovery without a genre filter. *)
Lemma movies_unknown_genre (genre : string) (page : Z) (items : list pyval)
    (w : World) :
  TMDB_API_KEY E <> "" ->
  genre_listing E items ->
  Forall (other_name E genre) items ->
  exists r : request,
    trace (movies E genre page w).2 =
      (trace w ++ [EvHttp (genre_list_request E); EvHttp r])%list /\
    url r = "https://api.themoviedb.org/3/discover/movie" /\
    params r = [("api_key", PyStr (TMDB_API_KEY E)); ("page", PyInt page)].
Proof.
  intros Hk Hl Hnone.
  destruct (movies_with_key genre page items PyNone w Hk Hl
              (find_genre_id_none genre items Hnone)) as [Ht _].
  exists (discover_request E PyNone page). split; [exact Ht|]. split; reflexivity.
Qed.

(** A genre that matches a known name whose id is true as a condition:
    discovery filtered by that id. *)
Lemma movies_known_genre (genre : string) (page : Z) (pre post : list pyval)
    (d : list (string * pyval)) (gid : pyval) (w : World) :
  TMDB_API_KEY E <> "" ->
  genre_listing E (pre ++ PyDict d :: post) ->
  Forall (other_name E genre) pre ->
  same_name E genre (PyDict d) ->
  assoc "id" d = Some gid ->
  truthy gid = true ->
  exists r : request,
    trace (movies E genre page w).2 =
      (trace w ++ [EvHttp (genre_list_request E); EvHttp r])%list /\
    url r = "https://api.themoviedb.org/3/discover/movie" /\
    params r = [("api_key", PyStr (TMDB_API_KEY E)); ("page", PyInt page);
                ("with_genres", gid)].
Proof.
  intros Hk Hl Hpre Hsame Hid Htrue.
  assert (Hfind : find_genre_id E (pre ++ PyDict d :: post) genre = Return gid).
  { rewrite (find_genre_id_first genre pre post d Hpre Hsame).
    cbn [py_getitem]. rewrite Hid. reflexivity. }
  destruct (movies_with_key genre page _ gid w Hk Hl Hfind) as [Ht _].
  exists (discover_request E gid page). split; [exact Ht|]. split; [reflexivity|].
  cbn [params discover_request]. unfold discover_params. rewrite Htrue. reflexivity.
Qed.
End GenreLookup.

(** C6: a genre that matches a known name whose id is [0] is not used as
    the filter: the discovery request carries [api_key] and [page] only, as
    for a genre that matches nothing. *)
Theorem movies_zero_id_not_filtered (E : Env) (genre : string) (page : Z)
    (pre post : list pyval) (d : list (string * pyval)) (w : World) :
  TMDB_API_KEY E <> "" ->
  genre_listing E (pre ++ PyDict d :: post) ->
  Forall (other_name E genre) pre ->
  same_name E genre (PyDict d) ->
  assoc "id" d = Some (PyInt 0) ->
  exists r : request,
    trace (movies E genre page w).2 =
      (trace w ++ [EvHttp (genre_list_request E); EvHttp r])%list /\
    url r = "https://api.themoviedb.org/3/discover/movie" /\
    params r = [("api_key", PyStr (TMDB_API_KEY E)); ("page", PyInt page)] /\
    assoc "with_genres" (params r) = None.
Proof.
  intros Hk Hl Hpre Hsame Hid.
  assert (Hfind : find_genre_id E (pre ++ PyDict d :: post) genre = Return (PyInt 0)).
  { rewrite (find_genre_id_first E genre pre post d Hpre Hsame).
    cbn [py_getitem]. rewrite Hid. reflexivity. }
  destruct (movies_with_key E genre page _ (PyInt 0) w Hk Hl Hfind) as [Ht _].
  exists (discover_request E (PyInt 0) page).
  split; [exact Ht|]. repeat split.
Qed.

(** ** News *)

Lemma news_items_cases (es : list entry) :
  (exists items : list pyval,
      news_items es = Return items /\ Forall2 item_of es items) \/
  (exists (attr : string) (e : entry),
      news_items es = Raise (AttributeError attr) /\ e ∈ es /\
      assoc attr e = None /\ (attr = "title" \/ attr = "link")).
Proof.
  induction es as [|e es IH].
  - left. exists []. split; [reflexivity | constructor].
  - cbn [news_items]. unfold entry_attr.
    destruct (assoc "title" e) as [t|] eqn:Ht.
    2:{ right. exists "title", e. repeat split; auto. left. }
    destruct (assoc "link" e) as [l|] eqn:Hl.
    2:{ right. exists "link", e. repeat split; auto. left. }
    unfold mbind, outcome_bind.
    destruct IH as [(items & -> & Hall) | (attr & e' & -> & Hin & Hmiss & Hattr)].
    + left. eexists. split; [reflexivity|]. constructor; [|exact Hall].
      exists t, l. auto.
    + right. exists attr, e'. repeat split; auto. right. exact Hin.
Qed.

Lemma news_run (E : Env) (query : string) (w : World) :
  news E query w =
    (match news_items (take 12 (feedparser_parse E (rss_url query))) with
     | Return items =>
         Return (Content (PyDict [("query", PyStr query); ("items", PyList items)]))
     | Raise e => Raise e
     end,
     {| fs := fs w; trace := trace w ++ [EvFeed (rss_url query)] |}).
Proof.
  unfold news. run.
  destruct (news_items (take 12 (feedparser_parse E (rss_url query)))); reflexivity.
Qed.

(** The two outcomes of [GET /api/news], which parses the feed once: it
    returns [query] and the items of the first 12 entries, or one of those
    entries has no [title] or no [link] and the handler raises. *)
Theorem news_first_twelve (E : Env) (query : string) (w : World) :
  let entries := feedparser_parse E (rss_url query) in
  (news E query w).2 =
    {| fs := fs w; trace := trace w ++ [EvFeed (rss_url query)] |} /\
  ((exists items : list pyval,
       (news E query w).1 =
         Return (Content (PyDict [("query", PyStr query); ("items", PyList items)])) /\
       (length items <= 12)%nat /\
       length items = Nat.min 12 (length entries) /\
       Forall2 item_of (take 12 entries) items) \/
   (exists (attr : string) (e : entry),
       (news E query w).1 = Raise (AttributeError attr) /\
       e ∈ take 12 entries /\ assoc attr e = None /\
       (attr = "title" \/ attr = "link"))).
Proof.
  cbn zeta. rewrite (news_run E query w). cbn [fst snd].
  split; [reflexivity|].
  destruct (news_items_cases (take 12 (feedparser_parse E (rss_url query))))
    as [(items & Hn & Hall) | (attr & e & Hn & Hin & Hmiss & Hattr)]; rewrite Hn.
  - left. exists items. split; [reflexivity|].
    pose proof (Forall2_length _ _ _ Hall) as Hlen.
    rewrite length_take in Hlen. split; [lia|]. split; [lia|exact Hall].
  - right. exists attr, e. auto.
Qed.

(** C7 (as amended): for every query and every feed whose first 12 entries
    each have a [title] and a [link], [GET /api/news] parses the feed once
    and returns [query] and the items of those entries, in order, at most 12
    of them, each with the entry's [title] and [link] and with [published]
    being the entry's or [None]. *)
Theorem news_first_twelve_when_titled (E : Env) (query : string) (w : World) :
  let entries := feedparser_parse E (rss_url query) in
  Forall has_title_and_link (take 12 entries) ->
  (news E query w).2 =
    {| fs := fs w; trace := trace w ++ [EvFeed (rss_url query)] |} /\
  exists items : list pyval,
    (news E query w).1 =
      Return (Content (PyDict [("query", PyStr query); ("items", PyList items)])) /\
    (length items <= 12)%nat /\
    length items = Nat.min 12 (length entries) /\
    Forall2 item_of (take 12 entries) items.
Proof.
  cbn zeta. intros Hok. rewrite (news_run E query w). cbn [fst snd].
  split; [reflexivity|].
  destruct (news_items_cases (take 12 (feedparser_parse E (rss_url query))))
    as [(items & Hn & Hall) | (attr & e & Hn & Hin & Hmiss & Hattr)].
  - rewrite Hn. exists items. split; [reflexivity|].
    pose proof (Forall2_length _ _ _ Hall) as Hlen.
    rewrite length_take in Hlen. split; [lia|]. split; [lia|exact Hall].
  - exfalso. rewrite Forall_forall in Hok.
    destruct (Hok e Hin) as [[t Ht] [l Hl]].
    destruct Hattr as [-> | ->]; congruence.
Qed.

(** The claim C7 without the condition on the entries fails: on a feed whose
    one entry has a link and no title the handler raises at [e.title], the
    reply is a 500 and no items are returned. *)
Lemma news_untitled_entry_raises :
  feedparser_parse Cases.untitled_feed (rss_url "top stories") =
    [[("link", PyStr "https://news.example/1")]] /\
  (news Cases.untitled_feed "top stories" Demo.fresh).1 =
    Raise (AttributeError "title") /\
  (serve (news Cases.untitled_feed "top stories") Demo.fresh).1 = server_error /\
  ~ (exists items : list pyval,
        (news Cases.untitled_feed "top stories" Demo.fresh).1 =
          Return (Content (PyDict [("query", PyStr "top stories");
                                   ("items", PyList items)]))).
Proof.
  split; [reflexivity|]. split; [reflexivity|]. split; [reflexivity|].
  intros [items H]. discriminate H.
Qed.

(** ** Places *)

Lemma has_prefix_app (p s : string) : has_prefix p (p +:+ s) = true.
Proof.
  induction p as [|a p IH]; [reflexivity|].
  change (String a p +:+ s) with (String a (p +:+ s)).
  cbn [has_prefix]. rewrite Ascii.eqb_refl. exact IH.
Qed.

Lemma contains_here (sub post : string) : contains sub (sub +:+ post) = true.
Proof.
  destruct (sub +:+ post) eqn:Hs; cbn [contains];
    rewrite <- Hs, has_prefix_app; reflexivity.
Qed.

Lemma contains_later (sub pre s : string) :
  contains sub s = true -> contains sub (pre +:+ s) = true.
Proof.
  intros H. induction pre as [|a pre IH]; [exact H|].
  change (String a pre +:+ s) with (String a (pre +:+ s)).
  cbn [contains]. rewrite IH. apply orb_true_r.
Qed.

(** C8: [GET /api/places] makes one outbound request, a POST whose body
    holds, for each of [node], [way] and [relation], the clause with the
    radius in decimal, the coordinates and the amenity as given, and the
    output statement [out center 20;]. *)
Theorem places_query_embeds_arguments (E : Env) (lat lon : spec_float)
    (radius : Z) (amenity : string) (w : World) :
  let q := places_query E lat lon radius amenity in
  let clause (kind : string) :=
    kind +:+ "(around:" +:+ str_of_int radius +:+ "," +:+ float_str E lat
         +:+ "," +:+ float_str E lon +:+ ")[amenity=" +:+ amenity +:+ "];" in
  trace (places E lat lon radius amenity w).2 =
    (trace w ++ [EvHttp (places_request E lat lon radius amenity)])%list /\
  method (places_request E lat lon radius amenity) = "POST" /\
  data (places_request E lat lon radius amenity) = Some q /\
  contains (clause "node") q = true /\
  contains (clause "way") q = true /\
  contains (clause "relation") q = true /\
  contains "out center 20;" q = true.
Proof.
  cbn zeta. split; [|split; [reflexivity|split; [reflexivity|]]].
  - unfold places, client_send, raise_for_status, json. run.
    destruct (httpx_send E _) as [r|e]; simpl; [|reflexivity].
    destruct (resp_raise_for_status r); simpl; [reflexivity|].
    destruct (resp_json r); reflexivity.
  - unfold places_query.
    fold (around_clause E "node" lat lon radius amenity).
    fold (around_clause E "way" lat lon radius amenity).
    fold (around_clause E "relation" lat lon radius amenity).
    repeat split;
      repeat (first [ apply contains_here | reflexivity | apply contains_later ]).
Qed.

(** * Further properties *)

(** ** The relaying handlers *)

Lemma proxy_run (E : Env) (p : proxy) (w : World) :
  proxy_handler E p w =
    (relayed E (proxy_request E p),
     {| fs := fs w; trace := trace w ++ [EvHttp (proxy_request E p)] |}).
Proof.
  destruct p;
    unfold proxy_handler, proxy_request, relayed, get_weather, get_crypto, geocode,
      places, sports, client_send, raise_for_status, json;
    run; repeat (case_scrutinee; simpl); reflexivity.
Qed.

(** X1: the weather, crypto, geocode, places and sports handlers make
    exactly one outbound call whatever the upstream does, and leave the files
    alone. *)
Theorem proxy_makes_one_call (E : Env) (p : proxy) (w : World) :
  trace (proxy_handler E p w).2 = (trace w ++ [EvHttp (proxy_request E p)])%list /\
  fs (proxy_handler E p w).2 = fs w.
Proof. rewrite proxy_run. split; reflexivity. Qed.

(** X2: when the upstream answers with a good status and a JSON body, each
    of these handlers returns that body unchanged, and the reply is a 200
    carrying it when it has no non-finite number. *)
Theorem proxy_returns_body_unchanged (E : Env) (p : proxy) (w : World)
    (resp : http_response) (v : pyval) :
  httpx_send E (proxy_request E p) = Return resp ->
  resp_raise_for_status resp = None ->
  resp_json resp = Return v ->
  (proxy_handler E p w).1 = Return (Content v) /\
  (json_compliant v = true ->
   (serve (proxy_handler E p) w).1 =
     {| status := 200; payload := Some v; location := None |}).
Proof.
  intros Hs Hst Hj. unfold serve. rewrite proxy_run. cbn [fst snd].
  unfold relayed. rewrite Hs. unfold mbind, outcome_bind. rewrite Hst, Hj.
  split; [reflexivity|]. intros Hc. cbn [respond]. rewrite Hc. reflexivity.
Qed.

(** X3: an upstream failure fails the request with the same exception and
    a 500: a client error, a bad status (the body is then not looked at),
    or a body that does not decode. *)
Theorem proxy_upstream_failure (E : Env) (p : proxy) (w : World) (e : exn) :
  (httpx_send E (proxy_request E p) = Raise e \/
   (exists resp : http_response,
       httpx_send E (proxy_request E p) = Return resp /\
       resp_raise_for_status resp = Some e) \/
   (exists resp : http_response,
       httpx_send E (proxy_request E p) = Return resp /\
       resp_raise_for_status resp = None /\ resp_json resp = Raise e)) ->
  (proxy_handler E p w).1 = Raise e /\
  (serve (proxy_handler E p) w).1 = server_error.
Proof.
  intros H. unfold serve. rewrite proxy_run. cbn [fst snd]. unfold relayed.
  destruct H as [H | [(resp & H & Hst) | (resp & H & Hst & Hj)]];
    rewrite H; unfold mbind, outcome_bind; rewrite ?Hst, ?Hj; split; reflexivity.
Qed.

(** X4: what the one request of the weather, crypto and geocode handlers
    carries: the coordinates in the forecast URL; [ids], the currency under
    [vs_currencies] and the 24-hour change flag; the query with a limit of 5
    and a [User-Agent] header.  Each is sent with a timeout of 10. *)
Theorem proxy_requests_carry_arguments (E : Env) (w : World) :
  (forall lat lon : spec_float,
      exists r : request,
        trace (get_weather E lat lon w).2 = (trace w ++ [EvHttp r])%list /\
        url r = "https://api.open-meteo.com/v1/forecast?latitude=" +:+ float_str E lat
                  +:+ "&longitude=" +:+ float_str E lon +:+ "&current_weather=true" /\
        params r = [] /\ timeout r = Some 10) /\
  (forall ids vs_currency : string,
      exists r : request,
        trace (get_crypto E ids vs_currency w).2 = (trace w ++ [EvHttp r])%list /\
        assoc "ids" (params r) = Some (PyStr ids) /\
        assoc "vs_currencies" (params r) = Some (PyStr vs_currency) /\
        assoc "include_24hr_change" (params r) = Some (PyStr "true") /\
        timeout r = Some 10) /\
  (forall q : string,
      exists r : request,
        trace (geocode E q w).2 = (trace w ++ [EvHttp r])%list /\
        assoc "q" (params r) = Some (PyStr q) /\
        assoc "limit" (params r) = Some (PyInt 5) /\
        assoc "User-Agent" (headers r) = Some "your-app/1.0 (your-email@example.com)" /\
        timeout r = Some 10).
Proof.
  split; [|split].
  - intros lat lon. exists (weather_request E lat lon).
    pose proof (proxy_run E (PWeather lat lon) w) as H. cbn [proxy_handler] in H.
    rewrite H. repeat split.
  - intros ids vs_currency. exists (crypto_request ids vs_currency).
    pose proof (proxy_run E (PCrypto ids vs_currency) w) as H. cbn [proxy_handler] in H.
    rewrite H. repeat split.
  - intros q. exists (geocode_request q).
    pose proof (proxy_run E (PGeocode q) w) as H. cbn [proxy_handler] in H.
    rewrite H. repeat split.
Qed.

(** ** Sports *)

(** X5: the key in the sports URL is never empty: it is the configured
    one, and ["1"] when the variable is unset or empty. *)
Theorem sports_key_never_empty (E : Env) :
  sports_key E <> "" /\
  (environ E !! "SPORTSDB_KEY" = None \/ environ E !! "SPORTSDB_KEY" = Some "" ->
   sports_key E = "1") /\
  (forall k : string,
      environ E !! "SPORTSDB_KEY" = Some k -> k <> "" -> sports_key E = k).
Proof.
  unfold sports_key, SPORTSDB_KEY, getenv, str_truthy.
  split; [|split].
  - destruct (environ E !! "SPORTSDB_KEY") as [[|c k]|]; simpl; discriminate.
  - intros [H | H]; rewrite H; reflexivity.
  - intros k H Hk. rewrite H. destruct k; [congruence | reflexivity].
Qed.

(** ** Movies *)

Lemma movies_keyed_run (E : Env) (genre : string) (page : Z) (w : World) :
  TMDB_API_KEY E <> "" ->
  movies E genre page w =
    match relayed E (genre_list_request E) with
    | Return (Content listing) =>
        match (genres ← py_get listing "genres" (PyList []);
               items ← py_iter genres;
               find_genre_id E items genre) with
        | Return gid =>
            (relayed E (discover_request E gid page),
             {| fs := fs w;
                trace := trace w ++ [EvHttp (genre_list_request E);
                                     EvHttp (discover_request E gid page)] |})
        | Raise e =>
            (Raise e,
             {| fs := fs w; trace := trace w ++ [EvHttp (genre_list_request E)] |})
        end
    | Return other =>
        (Return other,
         {| fs := fs w; trace := trace w ++ [EvHttp (genre_list_request E)] |})
    | Raise e =>
        (Raise e,
         {| fs := fs w; trace := trace w ++ [EvHttp (genre_list_request E)] |})
    end.
Proof.
  intros Hk. unfold movies. rewrite (str_truthy_nonempty _ Hk).
  unfold relayed, client_send, raise_for_status, json. run.
  destruct (httpx_send E (genre_list_request E)) as [resp|e]; simpl; [|reflexivity].
  destruct (resp_raise_for_status resp); simpl; [reflexivity|].
  destruct (resp_json resp) as [listing|e]; simpl; [|reflexivity].
  destruct (py_get listing "genres" (PyList [])) as [genres|e]; simpl; [|reflexivity].
  destruct (py_iter genres) as [items|e]; simpl; [|reflexivity].
  destruct (find_genre_id E items genre) as [gid|e]; simpl; [|reflexivity].
  destruct (httpx_send E (discover_request E gid page)) as [r|e]; simpl.
  - destruct (resp_raise_for_status r); simpl.
    + rewrite <- app_assoc. reflexivity.
    + destruct (resp_json r); simpl; rewrite <- app_assoc; reflexivity.
  - rewrite <- app_assoc. reflexivity.
Qed.

(** X6: [GET /api/movies] calls out exactly when a key is configured, and
    then the genre list is asked first and at most one more call follows. *)
Theorem movies_calls_out_iff_key (E : Env) (genre : string) (page : Z) (w : World) :
  (trace (movies E genre page w).2 = trace w <-> TMDB_API_KEY E = "") /\
  (TMDB_API_KEY E <> "" ->
   exists rest : list event,
     trace (movies E genre page w).2 =
       (trace w ++ EvHttp (genre_list_request E) :: rest)%list /\
     (length rest <= 1)%nat) /\
  fs (movies E genre page w).2 = fs w.
Proof.
  destruct (String.eqb_spec (TMDB_API_KEY E) "") as [Hk | Hk].
  - split; [|split].
    + split; [intros _; exact Hk|]. intros _. unfold movies. rewrite Hk. reflexivity.
    + intros Hne. congruence.
    + unfold movies. rewrite Hk. reflexivity.
  - assert (Hrest : exists rest : list event,
               trace (movies E genre page w).2 =
                 (trace w ++ EvHttp (genre_list_request E) :: rest)%list /\
               (length rest <= 1)%nat /\ fs (movies E genre page w).2 = fs w).
    { rewrite (movies_keyed_run E genre page w Hk).
      destruct (relayed E (genre_list_request E)) as [[listing| | |]|e];
        try (exists []; repeat split; simpl; lia).
      destruct (genres ← py_get listing "genres" (PyList []);
                items ← py_iter genres; find_genre_id E items genre) as [gid|e].
      - eexists [_]. repeat split; simpl; lia.
      - exists []. repeat split; simpl; lia. }
    destruct Hrest as (rest & Ht & Hlen & Hfs).
    split; [|split; [|exact Hfs]].
    + split; [|congruence]. intros Heq. rewrite Ht in Heq.
      rewrite <- (app_nil_r (trace w)) in Heq at 2.
      apply app_inv_head in Heq. discriminate.
    + intros _. exists rest. auto.
Qed.

(** X7: when the genre lookup fails (client error, bad status or a body
    that does not decode), the request fails with that exception and the
    discovery call is never made. *)
Theorem movies_lookup_failure_stops (E : Env) (genre : string) (page : Z)
    (w : World) (e : exn) :
  TMDB_API_KEY E <> "" ->
  relayed E (genre_list_request E) = Raise e ->
  movies E genre page w =
    (Raise e, {| fs := fs w; trace := trace w ++ [EvHttp (genre_list_request E)] |}) /\
  (serve (movies E genre page) w).1 = server_error.
Proof.
  intros Hk Hr. unfold serve. rewrite (movies_keyed_run E genre page w Hk), Hr.
  split; reflexivity.
Qed.

(** X8: a lookup answer that is an object without the key [genres] counts
    as an empty genre list: the discovery goes out unfiltered, for every
    genre asked for. *)
Theorem movies_without_genres_key (E : Env) (genre : string) (page : Z)
    (w : World) (d : list (string * pyval)) :
  TMDB_API_KEY E <> "" ->
  relayed E (genre_list_request E) = Return (Content (PyDict d)) ->
  assoc "genres" d = None ->
  exists r : request,
    trace (movies E genre page w).2 =
      (trace w ++ [EvHttp (genre_list_request E); EvHttp r])%list /\
    url r = "https://api.themoviedb.org/3/discover/movie" /\
    params r = [("api_key", PyStr (TMDB_API_KEY E)); ("page", PyInt page)] /\
    (movies E genre page w).1 = relayed E r.
Proof.
  intros Hk Hr Hd. rewrite (movies_keyed_run E genre page w Hk), Hr.
  cbn [py_get]. unfold dict_get. rewrite Hd.
  exists (discover_request E PyNone page). repeat split.
Qed.

(** X9: a genre object without [name] that comes before any match makes
    the request fail with [KeyError "name"], and a matching one without [id]
    with [KeyError "id"]; in both cases no discovery call is made. *)
Theorem movies_malformed_genre_raises (E : Env) (genre : string) (page : Z)
    (w : World) (pre post : list pyval) (d : list (string * pyval)) :
  TMDB_API_KEY E <> "" ->
  relayed E (genre_list_request E) =
    Return (Content (PyDict [("genres", PyList (pre ++ PyDict d :: post))])) ->
  Forall (other_name E genre) pre ->
  (assoc "name" d = None ->
   movies E genre page w =
     (Raise (KeyError "name"),
      {| fs := fs w; trace := trace w ++ [EvHttp (genre_list_request E)] |})) /\
  (same_name E genre (PyDict d) -> assoc "id" d = None ->
   movies E genre page w =
     (Raise (KeyError "id"),
      {| fs := fs w; trace := trace w ++ [EvHttp (genre_list_request E)] |})).
Proof.
  intros Hk Hr Hpre. rewrite (movies_keyed_run E genre page w Hk), Hr.
  change (py_get (PyDict [("genres", PyList (pre ++ PyDict d :: post))])
            "genres" (PyList []))
    with (Return (A := pyval) (PyList (pre ++ PyDict d :: post))).
  unfold mbind, outcome_bind. cbn [py_iter].
  split.
  - intros Hname. rewrite (find_genre_id_skip E genre pre _ Hpre).
    cbn [find_genre_id py_getitem]. rewrite Hname. reflexivity.
  - intros Hsame Hid. rewrite (find_genre_id_first E genre pre post d Hpre Hsame).
    cbn [py_getitem]. rewrite Hid. reflexivity.
Qed.

(** X10: the first genre object that matches decides: when its id is not
    zero it is the filter, whatever comes after it in the list, another
    match or an object that is not a genre at all. *)
Theorem movies_first_match_wins (E : Env) (genre : string) (page : Z)
    (w : World) (pre post : list pyval) (d : list (string * pyval)) (id : Z) :
  TMDB_API_KEY E <> "" ->
  genre_listing E (pre ++ PyDict d :: post) ->
  Forall (other_name E genre) pre ->
  same_name E genre (PyDict d) ->
  assoc "id" d = Some (PyInt id) ->
  id <> 0 ->
  exists r : request,
    trace (movies E genre page w).2 =
      (trace w ++ [EvHttp (genre_list_request E); EvHttp r])%list /\
    assoc "with_genres" (params r) = Some (PyInt id) /\
    assoc "page" (params r) = Some (PyInt page).
Proof.
  intros Hk Hl Hpre Hsame Hid Hnz.
  destruct (movies_known_genre E genre page pre post d (PyInt id) w Hk Hl Hpre Hsame Hid)
    as (r & Ht & _ & Hp).
  { cbn [truthy]. apply negb_true_iff, Z.eqb_neq. exact Hnz. }
  exists r. split; [exact Ht|]. rewrite Hp. split; reflexivity.
Qed.

(** ** News *)

Lemma replace_char_length (old new : ascii) (s : string) :
  String.length (replace_char old new s) = String.length s.
Proof. induction s as [|c s IH]; [reflexivity|]. cbn. rewrite IH. reflexivity. Qed.

Lemma replace_char_get (old new : ascii) (s : string) (i : nat) :
  String.get i (replace_char old new s) =
    option_map (fun c => if Ascii.eqb c old then new else c) (String.get i s).
Proof.
  revert i. induction s as [|c s IH]; intros i; [reflexivity|].
  destruct i as [|i]; [reflexivity|]. cbn [replace_char String.get]. apply IH.
Qed.

(** X11: the feed URL is the fixed prefix, the query with every space
    turned into [+] and every other character kept in place, and the fixed
    India/English suffix. *)
Theorem rss_url_replaces_spaces (query : string) :
  exists q : string,
    rss_url query =
      "https://news.google.com/rss/search?q=" +:+ q +:+ "&hl=en-IN&gl=IN&ceid=IN:en" /\
    String.length q = String.length query /\
    (forall i : nat, String.get i q <> Some " "%char) /\
    (forall i : nat, String.get i query = Some " "%char ->
                     String.get i q = Some "+"%char) /\
    (forall (i : nat) (c : ascii),
        String.get i query = Some c -> c <> " "%char -> String.get i q = Some c).
Proof.
  exists (replace_char " " "+" query). split; [reflexivity|].
  split; [apply replace_char_length|]. split; [|split].
  - intros i. rewrite replace_char_get.
    destruct (String.get i query) as [c|]; [|discriminate]. cbn [option_map].
    destruct (Ascii.eqb_spec c " "%char) as [->|Hc]; [discriminate|].
    intros H. injection H as H. contradiction.
  - intros i H. rewrite replace_char_get, H. reflexivity.
  - intros i c H Hc. rewrite replace_char_get, H. cbn [option_map].
    destruct (Ascii.eqb_spec c " "%char); [contradiction | reflexivity].
Qed.

(** X12: only the first 12 entries of the feed count: two feeds that agree
    on them give the same outcome, whatever follows. *)
Theorem news_ignores_entries_after_twelfth (E1 E2 : Env) (query : string) (w : World) :
  take 12 (feedparser_parse E1 (rss_url query)) =
  take 12 (feedparser_parse E2 (rss_url query)) ->
  news E1 query w = news E2 query w.
Proof. intros H. rewrite !news_run, H. reflexivity. Qed.

(** ** The stock coroutine, when it is run *)

(** X13: a live price that is not [None], zero included, is the price, and
    the price history is not asked for. *)
Theorem fetch_stock_price_live_skips_history (E : Env) (symbol : string)
    (info : list (string * pyval)) (price : pyval) (w : World) :
  yf_info E symbol = Return info ->
  assoc "regularMarketPrice" info = Some price ->
  price <> PyNone ->
  (fetch_stock_price E symbol w).1 = Return (stock_reply symbol info price) /\
  trace (fetch_stock_price E symbol w).2 = (trace w ++ [EvTickerInfo symbol])%list.
Proof.
  intros Hi Hp Hn.
  assert (Hd : dict_get info "regularMarketPrice" PyNone = price).
  { unfold dict_get. rewrite Hp. reflexivity. }
  rewrite (fetch_stock_price_live E symbol info w Hi).
  - rewrite Hd. split; reflexivity.
  - rewrite Hd. destruct price; [congruence | reflexivity ..].
Qed.

(** X14: without a live price (the key missing, or bound to [None]) and
    with a history that has rows and a [Close] column, the price is the last
    value of that column. *)
Theorem fetch_stock_price_uses_last_close (E : Env) (symbol : string)
    (info : list (string * pyval)) (hist : DataFrame)
    (earlier : list spec_float) (c : spec_float) (w : World) :
  yf_info E symbol = Return info ->
  (assoc "regularMarketPrice" info = None \/
   assoc "regularMarketPrice" info = Some PyNone) ->
  yf_history E symbol "1d" = Return hist ->
  df_rows hist <> 0%nat ->
  assoc "Close" (df_columns hist) = Some (earlier ++ [c])%list ->
  (fetch_stock_price E symbol w).1 = Return (stock_reply symbol info (PyFloat c)) /\
  trace (fetch_stock_price E symbol w).2 =
    (trace w ++ [EvTickerInfo symbol; EvTickerHistory symbol "1d"])%list.
Proof.
  intros Hi Hp Hh Hrows Hc.
  assert (Hd : dict_get info "regularMarketPrice" PyNone = PyNone).
  { unfold dict_get. destruct Hp as [-> | ->]; reflexivity. }
  assert (He : df_empty hist = false).
  { unfold df_empty. apply Nat.eqb_neq in Hrows. rewrite Hrows.
    destruct (df_columns hist); [discriminate Hc | reflexivity]. }
  rewrite (fetch_stock_price_last_close E symbol info hist _ c w Hi Hd Hh He Hc).
  - split; reflexivity.
  - apply last_snoc.
Qed.

(** X15: a failure of yfinance fails the coroutine with the same exception:
    at the quote, before the history is asked for, or at the history; and a
    history with rows but no [Close] column gives [KeyError "Close"]. *)
Theorem fetch_stock_price_failures (E : Env) (symbol : string) (w : World) (e : exn) :
  (yf_info E symbol = Raise e ->
   fetch_stock_price E symbol w =
     (Raise e, {| fs := fs w; trace := trace w ++ [EvTickerInfo symbol] |})) /\
  (forall info : list (string * pyval),
      yf_info E symbol = Return info ->
      dict_get info "regularMarketPrice" PyNone = PyNone ->
      (yf_history E symbol "1d" = Raise e ->
       (fetch_stock_price E symbol w).1 = Raise e) /\
      (forall hist : DataFrame,
          yf_history E symbol "1d" = Return hist ->
          df_empty hist = false ->
          assoc "Close" (df_columns hist) = None ->
          (fetch_stock_price E symbol w).1 = Raise (KeyError "Close"))).
Proof.
  split.
  - intros Hi. unfold fetch_stock_price. run. rewrite Hi. reflexivity.
  - intros info Hi Hp. split.
    + intros Hh. unfold fetch_stock_price. run. rewrite Hi. simpl. rewrite Hp. simpl.
      rewrite Hh. reflexivity.
    + intros hist Hh He Hc. unfold fetch_stock_price, df_column. run.
      rewrite Hi. simpl. rewrite Hp. simpl. rewrite Hh. simpl. rewrite He. simpl.
      rewrite Hc. reflexivity.
Qed.

(** ** The delegated-access endpoints with a credential *)

Lemma handle_authenticated_run (E : Env) (w : World) (c : Credentials) (d : delegated) :
  load_google_creds E w = (Return (Some c), w) ->
  handle E d w =
    let call := provider_call d c in
    let built := {| fs := fs w;
                    trace := trace w ++ [EvBuild (g_service (call ""))
                                                 (g_version (call "")) c] |} in
    match google_build E (g_service (call "")) (g_version (call "")) c with
    | Raise e => (Raise e, built)
    | Return _ =>
        match encoded E d with
        | Raise e => (Raise e, built)
        | Return raw =>
            (v ← google_execute E (call raw); Return (Content v),
             {| fs := fs w;
                trace := trace w ++ [EvBuild (g_service (call ""))
                                             (g_version (call "")) c;
                                     EvExecute (call raw)] |})
        end
    end.
Proof.
  intros Hl.
  destruct d; unfold handle, create_event, gmail_threads, gmail_send, build, execute;
    run; rewrite Hl; cbn zeta;
    repeat (case_scrutinee; simpl); rewrite <- ?app_assoc; reflexivity.
Qed.

Lemma load_lookup_only (E : Env) (w1 w2 : World) :
  fs w1 !! token_path = fs w2 !! token_path ->
  (load_google_creds E w1).1 = (load_google_creds E w2).1.
Proof.
  intros H. destruct (fs w1 !! token_path) as [[content|]|] eqn:H1; symmetry in H.
  - rewrite (load_file E w1 content H1), (load_file E w2 content H). reflexivity.
  - rewrite (load_dir E w1 H1), (load_dir E w2 H). reflexivity.
  - rewrite (load_absent E w1 H1), (load_absent E w2 H). reflexivity.
Qed.

Lemma load_keeps_world (E : Env) (w : World) : (load_google_creds E w).2 = w.
Proof.
  destruct (fs w !! token_path) as [[content|]|] eqn:H1.
  - rewrite (load_file E w content H1). reflexivity.
  - rewrite (load_dir E w H1). reflexivity.
  - rewrite (load_absent E w H1). reflexivity.
Qed.

Lemma handle_lookup_only (E : Env) (d : delegated) (w1 w2 : World) :
  fs w1 !! token_path = fs w2 !! token_path ->
  (handle E d w1).1 = (handle E d w2).1.
Proof.
  intros H. pose proof (load_lookup_only E w1 w2 H) as Hl.
  pose proof (load_keeps_world E w1) as K1. pose proof (load_keeps_world E w2) as K2.
  destruct (load_google_creds E w1) as [o1 w1'] eqn:L1.
  destruct (load_google_creds E w2) as [o2 w2'] eqn:L2.
  cbn [fst snd] in Hl, K1, K2. subst o2 w1' w2'.
  destruct o1 as [[c|]|e].
  - rewrite (handle_authenticated_run E w1 c d L1),
            (handle_authenticated_run E w2 c d L2).
    cbn zeta. repeat (case_scrutinee; simpl); reflexivity.
  - rewrite (handle_absent E w1 d L1), (handle_absent E w2 d L2). reflexivity.
  - rewrite (handle_raise E w1 d e L1), (handle_raise E w2 d e L2). reflexivity.
Qed.

Lemma handle_keeps_files (E : Env) (d : delegated) (w : World) :
  fs (handle E d w).2 = fs w.
Proof.
  pose proof (load_keeps_world E w) as K.
  destruct (load_google_creds E w) as [o w'] eqn:L. cbn [snd] in K. subst w'.
  destruct o as [[c|]|e].
  - rewrite (handle_authenticated_run E w c d L).
    cbn zeta. repeat (case_scrutinee; simpl); reflexivity.
  - rewrite (handle_absent E w d L). reflexivity.
  - rewrite (handle_raise E w d e L). reflexivity.
Qed.

(** X16: with a stored credential that loads, a service that builds and,
    for [gmail_send], a message that encodes, each delegated-access endpoint
    builds its service and runs exactly one provider call: the event insert
    into the primary calendar with the three form fields as given, the
    thread list of [me] capped at 10, or the send of the encoded message.
    The provider's answer, or its exception, is the handler's. *)
Theorem delegated_makes_provider_call (E : Env) (w : World) (d : delegated)
    (content raw : string) (c : Credentials) :
  fs w !! token_path = Some (File content) ->
  creds_from_authorized_user_info E content SCOPES = Return c ->
  google_build E (g_service (provider_call d c raw))
                 (g_version (provider_call d c raw)) c = Return tt ->
  encoded E d = Return raw ->
  (handle E d w).1 =
    (v ← google_execute E (provider_call d c raw); Return (Content v)) /\
  trace (handle E d w).2 =
    (trace w ++ [EvBuild (g_service (provider_call d c raw))
                         (g_version (provider_call d c raw)) c;
                 EvExecute (provider_call d c raw)])%list.
Proof.
  intros Hfs Hc Hb He.
  assert (Hl : load_google_creds E w = (Return (Some c), w)).
  { rewrite (load_file E w content Hfs), Hc. reflexivity. }
  rewrite (handle_authenticated_run E w c d Hl). cbn zeta.
  destruct d; cbn [provider_call g_service g_version] in *;
    rewrite Hb, He; split; reflexivity.
Qed.

(** X17: when the service does not build, or the message of [gmail_send]
    does not encode, the request fails with that exception and nothing is
    run on the provider. *)
Theorem delegated_failure_before_provider_call (E : Env) (w : World) (d : delegated)
    (content : string) (c : Credentials) (e : exn) :
  fs w !! token_path = Some (File content) ->
  creds_from_authorized_user_info E content SCOPES = Return c ->
  (google_build E (g_service (provider_call d c "")) (g_version (provider_call d c "")) c
     = Raise e \/
   (google_build E (g_service (provider_call d c "")) (g_version (provider_call d c "")) c
      = Return tt /\ encoded E d = Raise e)) ->
  (handle E d w).1 = Raise e /\
  trace (handle E d w).2 =
    (trace w ++ [EvBuild (g_service (provider_call d c ""))
                         (g_version (provider_call d c "")) c])%list.
Proof.
  intros Hfs Hc Hfail.
  assert (Hl : load_google_creds E w = (Return (Some c), w)).
  { rewrite (load_file E w content Hfs), Hc. reflexivity. }
  rewrite (handle_authenticated_run E w c d Hl). cbn zeta.
  destruct Hfail as [Hb | [Hb He]]; rewrite Hb; [|rewrite He]; split; reflexivity.
Qed.

(** ** Who writes files *)

Lemma callback_touches_token_only (E : Env) (full_url : string) (w : World) (p : string) :
  p <> token_path ->
  fs (oauth2callback E full_url w).2 !! p = fs w !! p.
Proof.
  intros Hp.
  unfold oauth2callback, from_client_secrets_file, read_file, open_w, parent_ok,
    f_write.
  run.
  repeat (case_scrutinee; simpl); rewrite ?insert_insert_eq;
    rewrite ?lookup_insert_ne by congruence; reflexivity.
Qed.

Lemma route_keeps_files (E : Env) (a : api) (w : World) :
  is_callback a = false -> fs (route E a w).2 = fs w.
Proof.
  destruct a as [p|symbol|genre page|query| |full_url|d]; intros Hc;
    try discriminate Hc; cbn [route].
  - rewrite proxy_run. reflexivity.
  - reflexivity.
  - destruct (String.eqb_spec (TMDB_API_KEY E) "") as [Hk | Hk].
    + unfold movies. rewrite Hk. reflexivity.
    + rewrite (movies_keyed_run E genre page w Hk).
      repeat (case_scrutinee; simpl); reflexivity.
  - rewrite news_run. reflexivity.
  - unfold auth_google, from_client_secrets_file, read_file. run.
    repeat (case_scrutinee; simpl); reflexivity.
  - apply handle_keeps_files.
Qed.

(** X18: no route but [/oauth2callback] changes a file, and
    [/oauth2callback] changes no path but the token file. *)
Theorem only_callback_writes_files (E : Env) (a : api) (w : World) :
  (is_callback a = false -> fs (route E a w).2 = fs w) /\
  (forall p : string, p <> token_path -> fs (route E a w).2 !! p = fs w !! p).
Proof.
  split; [apply route_keeps_files|].
  intros p Hp. destruct (is_callback a) eqn:Hc.
  - destruct a; try discriminate Hc. apply callback_touches_token_only. exact Hp.
  - rewrite (route_keeps_files E a w Hc). reflexivity.
Qed.

Lemma run_all_keeps_files (E : Env) (calls : list api) (w : World) :
  forallb (fun a => negb (is_callback a)) calls = true ->
  fs (run_all E calls w) = fs w.
Proof.
  revert w. induction calls as [|a calls IH]; intros w H; [reflexivity|].
  cbn [forallb] in H. apply andb_true_iff in H as [Ha Hrest].
  apply negb_true_iff in Ha. cbn [run_all].
  rewrite (IH _ Hrest). apply route_keeps_files. exact Ha.
Qed.

(** X19: over any sequence of requests without a callback, the
    authentication state stays what it was: the loader and every
    delegated-access endpoint answer after it as they would have before. *)
Theorem authentication_changes_only_by_callback (E : Env) (calls : list api)
    (w : World) :
  forallb (fun a => negb (is_callback a)) calls = true ->
  fs (run_all E calls w) = fs w /\
  (load_google_creds E (run_all E calls w)).1 = (load_google_creds E w).1 /\
  forall d : delegated,
    (handle E d (run_all E calls w)).1 = (handle E d w).1.
Proof.
  intros H. pose proof (run_all_keeps_files E calls w H) as Hfs.
  split; [exact Hfs|]. split.
  - apply load_lookup_only. rewrite Hfs. reflexivity.
  - intros d. apply handle_lookup_only. rewrite Hfs. reflexivity.
Qed.

(** ** The OAuth routes *)

(** X20: [/auth/google] contacts nobody and leaves the world as it is; with
    readable client secrets it redirects to the URL the flow gives for the
    three scopes, the configured redirect URI, forced consent and offline
    access; without the file it fails with [FileNotFoundError]. *)
Theorem auth_google_only_redirects (E : Env) (w : World) :
  (auth_google E w).2 = w /\
  (forall secrets : string,
      fs w !! GOOGLE_CLIENT_SECRETS E = Some (File secrets) ->
      client_secrets_check E secrets = None ->
      (auth_google E w).1 =
        Return (RedirectResponse
                  (flow_authorization_url E
                     {| client_config := secrets; flow_scopes := SCOPES;
                        redirect_uri := Some (GOOGLE_REDIRECT E) |}
                     [("prompt", "consent"); ("access_type", "offline");
                      ("include_granted_scopes", "true")]).1)) /\
  (fs w !! GOOGLE_CLIENT_SECRETS E = None ->
   (auth_google E w).1 = Raise (FileNotFoundError (GOOGLE_CLIENT_SECRETS E))).
Proof.
  split; [|split].
  - unfold auth_google, from_client_secrets_file, read_file. run.
    repeat (case_scrutinee; simpl); reflexivity.
  - intros secrets Hfs Hok. unfold auth_google.
    unfold mbind at 1, M_bind. rewrite (flow_from_secrets E w secrets Hfs Hok).
    reflexivity.
  - intros Hfs. unfold auth_google, from_client_secrets_file, read_file. run.
    rewrite !Hfs. reflexivity.
Qed.

(** X21: without readable, valid client secrets [/oauth2callback] fails
    before the exchange: no outbound call is made and the world is as it
    was. *)
Theorem callback_without_secrets (E : Env) (full_url : string) (w : World) :
  (fs w !! GOOGLE_CLIENT_SECRETS E = None ->
   oauth2callback E full_url w =
     (Raise (FileNotFoundError (GOOGLE_CLIENT_SECRETS E)), w)) /\
  (forall (secrets : string) (e : exn),
      fs w !! GOOGLE_CLIENT_SECRETS E = Some (File secrets) ->
      client_secrets_check E secrets = Some e ->
      oauth2callback E full_url w = (Raise e, w)).
Proof.
  split.
  - intros Hfs. unfold oauth2callback, from_client_secrets_file, read_file. run.
    rewrite !Hfs. reflexivity.
  - intros secrets e Hfs Hbad.
    unfold oauth2callback, from_client_secrets_file, read_file. run.
    rewrite !Hfs. simpl. rewrite Hbad. reflexivity.
Qed.

(** X22: when the token directory is gone, a callback whose exchange
    succeeded still fails, with [FileNotFoundError] at the [open]: the code
    was spent on the exchange, and no token file is written. *)
Theorem callback_without_tokens_dir (E : Env) (w : World)
    (secrets full_url : string) (c : Credentials) :
  fs w !! GOOGLE_CLIENT_SECRETS E = Some (File secrets) ->
  client_secrets_check E secrets = None ->
  flow_fetch_token E (callback_flow E secrets) full_url = Return c ->
  fs w !! TOKENS_DIR = None ->
  oauth2callback E full_url w =
    (Raise (FileNotFoundError token_path),
     {| fs := fs w;
        trace := trace w ++ [EvFetchToken (callback_flow E secrets) full_url] |}).
Proof.
  intros Hfs Hok Hx Hdir. unfold oauth2callback.
  unfold mbind at 1, M_bind. rewrite (flow_from_secrets E w secrets Hfs Hok).
  fold (callback_flow E secrets).
  unfold mbind at 1, M_bind. unfold call, emit, lift. unfold mbind at 1, M_bind.
  rewrite Hx.
  unfold mbind at 1, M_bind. unfold open_w, parent_ok.
  rewrite dirname_token_path. cbn [fs trace].
  change (String.eqb TOKENS_DIR "") with false. cbv iota.
  rewrite Hdir. reflexivity.
Qed.

(** X23: of two callbacks that both succeed, the second decides: the token
    file holds the second credential, as if the first had not happened. *)
Theorem callback_twice_last_wins (E : Env) (w : World)
    (secrets url1 url2 : string) (c1 c2 : Credentials) :
  fs w !! GOOGLE_CLIENT_SECRETS E = Some (File secrets) ->
  GOOGLE_CLIENT_SECRETS E <> token_path ->
  client_secrets_check E secrets = None ->
  flow_fetch_token E (callback_flow E secrets) url1 = Return c1 ->
  flow_fetch_token E (callback_flow E secrets) url2 = Return c2 ->
  fs w !! TOKENS_DIR = Some Dir ->
  fs w !! token_path <> Some Dir ->
  let w1 := (oauth2callback E url1 w).2 in
  fs (oauth2callback E url2 w1).2 = fs (oauth2callback E url2 w).2 /\
  fs (oauth2callback E url2 w1).2 !! token_path = Some (File (creds_to_json E c2)).
Proof.
  intros Hfs Hne Hok Hx1 Hx2 Hdir Hnd. cbn zeta.
  rewrite (callback_exchange_succeeds E w secrets url1 c1 Hfs Hok Hx1 Hdir Hnd).
  rewrite (callback_exchange_succeeds E w secrets url2 c2 Hfs Hok Hx2 Hdir Hnd).
  cbn [snd].
  rewrite (callback_exchange_succeeds E _ secrets url2 c2); cbn [fs snd].
  - rewrite insert_insert_eq. split; [reflexivity | apply lookup_insert_eq].
  - rewrite lookup_insert_ne by congruence. exact Hfs.
  - exact Hok.
  - exact Hx2.
  - rewrite lookup_insert_ne by discriminate. exact Hdir.
  - rewrite lookup_insert_eq. discriminate.
Qed.

Lemma flow_construction_keeps_world (E : Env) (path : string)
    (scopes : list string) (w : World) :
  (from_client_secrets_file E path scopes w).2 = w.
Proof.
  unfold from_client_secrets_file, read_file. run.
  repeat (case_scrutinee; simpl); reflexivity.
Qed.

Lemma open_w_raise_files_only (p : string) (w w1 : World) (e : exn) :
  fs w1 = fs w ->
  (open_w p w).1 = Raise e ->
  open_w p w1 = (Raise e, w1).
Proof.
  unfold open_w, parent_ok. intros Hfs. rewrite Hfs.
  repeat (case_scrutinee; simpl); intros H; try discriminate H;
    injection H as <-; reflexivity.
Qed.

(** X24: a callback that fails before the token file is written, because
    the flow cannot be made from the client secrets, because the exchange
    raises, or because [open] raises, fails with that exception and changes
    no file: a credential stored earlier stays, and the loader and the
    delegated-access endpoints answer after it as before. *)
Theorem callback_failure_before_write_keeps_credential (E : Env)
    (full_url : string) (w : World) (e : exn) :
  ((from_client_secrets_file E (GOOGLE_CLIENT_SECRETS E) SCOPES w).1 = Raise e \/
   (exists secrets : string,
       fs w !! GOOGLE_CLIENT_SECRETS E = Some (File secrets) /\
       client_secrets_check E secrets = None /\
       (flow_fetch_token E (callback_flow E secrets) full_url = Raise e \/
        (exists c : Credentials,
            flow_fetch_token E (callback_flow E secrets) full_url = Return c /\
            (open_w token_path w).1 = Raise e)))) ->
  let w' := (oauth2callback E full_url w).2 in
  (oauth2callback E full_url w).1 = Raise e /\
  fs w' = fs w /\
  (load_google_creds E w').1 = (load_google_creds E w).1 /\
  forall d : delegated, (handle E d w').1 = (handle E d w).1.
Proof.
  intros H. cbn zeta.
  assert (Hrun : exists w1 : World,
             oauth2callback E full_url w = (Raise e, w1) /\ fs w1 = fs w).
  { destruct H as [Hflow | (secrets & Hfs & Hok & [Hx | (c & Hx & Hopen)])].
    - pose proof (flow_construction_keeps_world E (GOOGLE_CLIENT_SECRETS E) SCOPES w)
        as Hw.
      exists w. split; [|reflexivity].
      unfold oauth2callback. unfold mbind at 1, M_bind.
      destruct (from_client_secrets_file E (GOOGLE_CLIENT_SECRETS E) SCOPES w)
        as [o w0].
      cbn [fst snd] in Hflow, Hw. subst o w0. reflexivity.
    - eexists. split.
      + apply (callback_exchange_fails E w secrets full_url e Hfs Hok Hx).
      + reflexivity.
    - eexists. split.
      + unfold oauth2callback.
        unfold mbind at 1, M_bind. rewrite (flow_from_secrets E w secrets Hfs Hok).
        fold (callback_flow E secrets).
        unfold mbind at 1, M_bind. unfold call, emit, lift. unfold mbind at 1, M_bind.
        rewrite Hx.
        unfold mbind at 1, M_bind.
        match goal with
        | |- context [open_w token_path ?x] =>
            rewrite (open_w_raise_files_only token_path w x e eq_refl Hopen)
        end.
        reflexivity.
      + reflexivity. }
  destruct Hrun as (w1 & Hrun & Hfs). rewrite Hrun. cbn [fst snd].
  split; [reflexivity|]. split; [exact Hfs|]. split.
  - apply load_lookup_only. rewrite Hfs. reflexivity.
  - intros d. apply handle_lookup_only. rewrite Hfs. reflexivity.
Qed.

(** X25: the import makes the token directory when it is missing and
    changes nothing else, so a stored token survives a restart; a second
    import changes nothing; and the import fails when [tokens] is a file. *)
Theorem startup_keeps_token (E : Env) (w : World) :
  ((startup w).1 = Return tt ->
   fs (startup w).2 !! TOKENS_DIR = Some Dir /\
   (forall p : string, p <> TOKENS_DIR -> fs (startup w).2 !! p = fs w !! p) /\
   (load_google_creds E (startup w).2).1 = (load_google_creds E w).1 /\
   startup (startup w).2 = (Return tt, (startup w).2)) /\
  (forall content : string,
      fs w !! TOKENS_DIR = Some (File content) ->
      startup w = (Raise (FileExistsError TOKENS_DIR), w)).
Proof.
  unfold startup, makedirs. split.
  - destruct (fs w !! TOKENS_DIR) as [[content|]|] eqn:Hd; cbn [fst snd fs];
      [discriminate | |]; intros _.
    + rewrite Hd. repeat split.
    + rewrite lookup_insert_eq. split; [reflexivity|].
      split; [intros p Hp; apply lookup_insert_ne; congruence|].
      split; [|reflexivity].
      apply load_lookup_only. cbn [fs]. apply lookup_insert_ne. discriminate.
  - intros content Hd. rewrite Hd. reflexivity.
Qed.

(** * The properties at concrete inputs *)

Lemma not_authenticated_without_token_witness :
  fs Demo.fresh !! token_path = None /\
  serve (handle Demo.plain (GmailSend "a@example.org" "hello" "text")) Demo.fresh =
    ({| status := 401;
        payload := Some (PyDict [("error", PyStr "not_authenticated")]);
        location := None |}, Demo.fresh).
Proof.
  split; [reflexivity|].
  destruct (not_authenticated_without_token Demo.plain Demo.fresh
              (GmailSend "a@example.org" "hello" "text")) as (_ & H & _);
    [reflexivity | exact H].
Defined.

Lemma failed_exchange_keeps_store_witness :
  let full_url := "http://localhost:8000/oauth2callback?code=4/expired" in
  (oauth2callback Demo.plain full_url Demo.fresh).1 =
    Raise (LibraryError "oauthlib" "invalid_grant") /\
  fs (oauth2callback Demo.plain full_url Demo.fresh).2 = fs Demo.fresh /\
  handle Demo.plain GmailThreads (oauth2callback Demo.plain full_url Demo.fresh).2 =
    (Return not_authenticated, (oauth2callback Demo.plain full_url Demo.fresh).2).
Proof.
  cbn zeta.
  destruct (failed_exchange_keeps_store Demo.plain Demo.fresh "{}"
              "http://localhost:8000/oauth2callback?code=4/expired"
              (LibraryError "oauthlib" "invalid_grant"))
    as (H1 & _ & H2 & _ & H3); [reflexivity | reflexivity | reflexivity |].
  split; [exact H1|]. split; [exact H2|]. apply H3. reflexivity.
Defined.

Lemma callback_then_load_roundtrip_witness :
  let full_url := "http://localhost:8000/oauth2callback?code=4/valid" in
  let w' := (oauth2callback Demo.plain full_url Demo.fresh).2 in
  fs w' !! token_path = Some (File "ya29.token") /\
  (load_google_creds Demo.plain w').1 =
    Return (Some {| token := "ya29.token"; refresh_token := None;
                    scopes := SCOPES; expiry := None |}) /\
  (handle Demo.plain GmailThreads w').1 <> Return not_authenticated.
Proof.
  cbn zeta.
  destruct (callback_then_load_roundtrip Demo.plain Demo.fresh "{}"
              "http://localhost:8000/oauth2callback?code=4/valid" Demo.creds
              {| token := "ya29.token"; refresh_token := None;
                 scopes := SCOPES; expiry := None |})
    as (_ & H2 & H3 & H4);
    [reflexivity | reflexivity | reflexivity | reflexivity | discriminate
    | reflexivity |].
  split; [rewrite H2; apply lookup_insert_eq|].
  split; [rewrite H3; reflexivity|].
  apply (H4 GmailThreads).
Defined.

Lemma movies_fallback_without_key_witness :
  TMDB_API_KEY Demo.plain = "" /\
  movies Demo.plain "Drama" 3 Demo.fresh = (Return (Content movies_fallback), Demo.fresh).
Proof.
  split; [reflexivity|].
  apply (movies_fallback_without_key Demo.plain "Drama" 3 Demo.fresh). reflexivity.
Defined.

Lemma movies_zero_id_not_filtered_witness :
  exists r : request,
    trace (movies Demo.keyed "action" 1 Demo.fresh).2 =
      [EvHttp (genre_list_request Demo.keyed); EvHttp r] /\
    url r = "https://api.themoviedb.org/3/discover/movie" /\
    params r = [("api_key", PyStr "k3y"); ("page", PyInt 1)] /\
    assoc "with_genres" (params r) = None.
Proof.
  apply (movies_zero_id_not_filtered Demo.keyed "action" 1
           [PyDict [("id", PyInt 18); ("name", PyStr "Drama")]]
           [PyDict [("id", PyInt 35); ("name", PyStr "Comedy")]]
           [("id", PyInt 0); ("name", PyStr "Action")] Demo.fresh).
  - discriminate.
  - eexists _, _, _. repeat split; reflexivity.
  - constructor; [|constructor]. eexists _, _. repeat split; discriminate.
  - eexists _, _. repeat split; reflexivity.
  - reflexivity.
Defined.

Lemma sports_ignores_sport_when_team_given_witness :
  sports Demo.plain "Soccer" "Arsenal" Demo.fresh =
  sports Demo.plain "Cricket" "Arsenal" Demo.fresh.
Proof.
  destruct (sports_ignores_sport_when_team_given Demo.plain "Arsenal" Demo.fresh)
    as [H _].
  apply (H ltac:(discriminate) "Soccer" "Cricket").
Defined.

Lemma loader_none_iff_absent_witness :
  fs Demo.broken !! token_path = Some (File "") /\
  serve (handle Demo.plain GmailThreads) Demo.broken = (server_error, Demo.broken).
Proof.
  split; [reflexivity|].
  destruct (loader_none_iff_absent Demo.plain Demo.broken) as [_ H].
  destruct (H "" (ValueError "Expecting value: line 1 column 1 (char 0)"))
    as [_ Hh]; [reflexivity | reflexivity |].
  apply (Hh GmailThreads).
Defined.

(** The stock endpoint on the demo quote: the coroutine would give the last
    close, the endpoint gives a 500. *)
Example stock_demo :
  (fetch_stock_price Demo.plain "AAPL" Demo.fresh).1 =
    Return (stock_reply "AAPL" [("shortName", PyStr "Apple Inc.");
                                ("currency", PyStr "USD")]
              (PyFloat (S754_finite false 189 0))) /\
  serve (get_stock Demo.plain "AAPL") Demo.fresh = (server_error, Demo.fresh).
Proof. split; reflexivity. Qed.

(** A valid genre whose id is not zero is used as the filter. *)
Example movies_demo_filtered :
  trace (movies Demo.keyed "DRAMA" 2 Demo.fresh).2 =
    [EvHttp (genre_list_request Demo.keyed);
     EvHttp {| method := "GET";
               url := "https://api.themoviedb.org/3/discover/movie";
               params := [("api_key", PyStr "k3y"); ("page", PyInt 2);
                          ("with_genres", PyInt 18)];
               data := None; headers := []; timeout := None |}].
Proof. reflexivity. Qed.

(** Fourteen entries in the feed, twelve items in the reply. *)
Example news_demo :
  exists items : list pyval,
    (news Demo.plain "top stories" Demo.fresh).1 =
      Return (Content (PyDict [("query", PyStr "top stories");
                               ("items", PyList items)])) /\
    length (feedparser_parse Demo.plain (rss_url "top stories")) = 14%nat /\
    length items = 12%nat /\
    rss_url "top stories" =
      "https://news.google.com/rss/search?q=top+stories&hl=en-IN&gl=IN&ceid=IN:en".
Proof. eexists. repeat split; reflexivity. Qed.

(** [radius=500], [amenity=cafe]. *)
Example places_demo :
  places_query Demo.plain (S754_finite false 28 0) (S754_finite false 77 0) 500 "cafe" =
    nl +:+ "    [out:json][timeout:25];" +:+ nl
       +:+ "    (" +:+ nl
       +:+ "      node(around:500,28.0,77.0)[amenity=cafe];" +:+ nl
       +:+ "      way(around:500,28.0,77.0)[amenity=cafe];" +:+ nl
       +:+ "      relation(around:500,28.0,77.0)[amenity=cafe];" +:+ nl
       +:+ "    );" +:+ nl
       +:+ "    out center 20;" +:+ nl
       +:+ "    ".
Proof. reflexivity. Qed.

(** Module import makes the token directory. *)
Example startup_demo :
  fs (startup {| fs := {[ "client_secret.json" := File "{}" ]}; trace := [] |}).2
    = fs Demo.fresh.
Proof. vm_compute. reflexivity. Qed.

(** * The further properties at concrete inputs *)

Lemma proxy_returns_body_unchanged_witness :
  (serve (geocode Demo.plain "Eiffel Tower") Demo.fresh).1 =
    {| status := 200; payload := Some (PyDict [("results", PyList [])]);
       location := None |}.
Proof.
  destruct (proxy_returns_body_unchanged Demo.plain (PGeocode "Eiffel Tower") Demo.fresh
              {| resp_raise_for_status := None;
                 resp_json := Return (PyDict [("results", PyList [])]) |}
              (PyDict [("results", PyList [])])) as [_ H];
    [reflexivity | reflexivity | reflexivity |].
  apply H. reflexivity.
Defined.

Lemma proxy_upstream_failure_witness :
  (places Demo.plain (S754_finite false 28 0) (S754_finite false 77 0) 500 "cafe"
     Demo.fresh).1 = Raise (LibraryError "httpx" "HTTPStatusError 429").
Proof.
  apply (proxy_upstream_failure Demo.plain
           (PPlaces (S754_finite false 28 0) (S754_finite false 77 0) 500 "cafe")
           Demo.fresh (LibraryError "httpx" "HTTPStatusError 429")).
  right. left. eexists. split; reflexivity.
Defined.

Lemma sports_key_never_empty_witness : sports_key Demo.plain = "1".
Proof.
  destruct (sports_key_never_empty Demo.plain) as (_ & H & _).
  apply H. left. reflexivity.
Defined.

Lemma movies_calls_out_iff_key_witness :
  exists rest : list event,
    trace (movies Demo.keyed "Drama" 1 Demo.fresh).2 =
      EvHttp (genre_list_request Demo.keyed) :: rest /\ (length rest <= 1)%nat.
Proof.
  destruct (movies_calls_out_iff_key Demo.keyed "Drama" 1 Demo.fresh) as (_ & H & _).
  apply H. discriminate.
Defined.

Lemma movies_lookup_failure_stops_witness :
  movies Cases.lookup_down "Drama" 1 Demo.fresh =
    (Raise (LibraryError "httpx" "ConnectTimeout"),
     {| fs := fs Demo.fresh;
        trace := [EvHttp (genre_list_request Cases.lookup_down)] |}).
Proof.
  apply (movies_lookup_failure_stops Cases.lookup_down "Drama" 1 Demo.fresh
           (LibraryError "httpx" "ConnectTimeout")).
  - discriminate.
  - reflexivity.
Defined.

Lemma movies_without_genres_key_witness :
  exists r : request,
    trace (movies Cases.no_genres "Drama" 1 Demo.fresh).2 =
      [EvHttp (genre_list_request Cases.no_genres); EvHttp r] /\
    params r = [("api_key", PyStr "k3y"); ("page", PyInt 1)].
Proof.
  destruct (movies_without_genres_key Cases.no_genres "Drama" 1 Demo.fresh
              [("status_message", PyStr "Invalid API key")])
    as (r & Ht & _ & Hp & _); [discriminate | reflexivity | reflexivity |].
  exists r. split; [exact Ht | exact Hp].
Defined.

Lemma movies_malformed_genre_raises_witness :
  (movies Cases.nameless "drama" 1 Demo.fresh).1 = Raise (KeyError "name").
Proof.
  destruct (movies_malformed_genre_raises Cases.nameless "drama" 1 Demo.fresh []
              [PyDict [("id", PyInt 18); ("name", PyStr "Drama")]]
              [("id", PyInt 28)]) as [H _];
    [discriminate | reflexivity | constructor |].
  rewrite H; reflexivity.
Defined.

Lemma movies_first_match_wins_witness :
  exists r : request,
    trace (movies Demo.keyed "drama" 4 Demo.fresh).2 =
      [EvHttp (genre_list_request Demo.keyed); EvHttp r] /\
    assoc "with_genres" (params r) = Some (PyInt 18) /\
    assoc "page" (params r) = Some (PyInt 4).
Proof.
  apply (movies_first_match_wins Demo.keyed "drama" 4 Demo.fresh []
           [PyDict [("id", PyInt 0); ("name", PyStr "Action")];
            PyDict [("id", PyInt 35); ("name", PyStr "Comedy")]]
           [("id", PyInt 18); ("name", PyStr "Drama")] 18).
  - discriminate.
  - eexists _, _, _. repeat split; reflexivity.
  - constructor.
  - eexists _, _. repeat split; reflexivity.
  - reflexivity.
  - discriminate.
Defined.

Lemma news_ignores_entries_after_twelfth_witness :
  news Demo.plain "top stories" Demo.fresh =
  news Cases.ragged_feed "top stories" Demo.fresh.
Proof.
  apply (news_ignores_entries_after_twelfth Demo.plain Cases.ragged_feed
           "top stories" Demo.fresh).
  reflexivity.
Defined.

Lemma fetch_stock_price_live_skips_history_witness :
  (fetch_stock_price Cases.zero_quote "AAPL" Demo.fresh).1 =
    Return (stock_reply "AAPL"
              [("regularMarketPrice", PyInt 0); ("currency", PyStr "USD")] (PyInt 0)) /\
  trace (fetch_stock_price Cases.zero_quote "AAPL" Demo.fresh).2 = [EvTickerInfo "AAPL"].
Proof.
  apply (fetch_stock_price_live_skips_history Cases.zero_quote "AAPL"
           [("regularMarketPrice", PyInt 0); ("currency", PyStr "USD")] (PyInt 0)
           Demo.fresh).
  - reflexivity.
  - reflexivity.
  - discriminate.
Defined.

Lemma fetch_stock_price_uses_last_close_witness :
  (fetch_stock_price Demo.plain "AAPL" Demo.fresh).1 =
    Return (stock_reply "AAPL"
              [("shortName", PyStr "Apple Inc."); ("currency", PyStr "USD")]
              (PyFloat (S754_finite false 189 0))).
Proof.
  destruct (fetch_stock_price_uses_last_close Demo.plain "AAPL"
              [("shortName", PyStr "Apple Inc."); ("currency", PyStr "USD")]
              {| df_rows := 1;
                 df_columns := [("Open", [S754_finite false 188 0]);
                                ("Close", [S754_finite false 189 0])] |}
              [] (S754_finite false 189 0) Demo.fresh) as [H _];
    [reflexivity | left; reflexivity | reflexivity | discriminate | reflexivity |].
  exact H.
Defined.

Lemma fetch_stock_price_failures_witness :
  fetch_stock_price Cases.no_quote "AAPL" Demo.fresh =
    (Raise (LibraryError "yfinance" "ConnectionError"),
     {| fs := fs Demo.fresh; trace := [EvTickerInfo "AAPL"] |}).
Proof.
  destruct (fetch_stock_price_failures Cases.no_quote "AAPL" Demo.fresh
              (LibraryError "yfinance" "ConnectionError")) as [H _].
  apply H. reflexivity.
Defined.

Lemma delegated_makes_provider_call_witness :
  let d := CreateEvent "Standup" "2026-11-04T09:00:00Z" "2026-11-04T09:15:00Z" in
  (handle Demo.plain d Cases.signed_in).1 = Return (Content (PyDict [("id", PyStr "r1")])) /\
  trace (handle Demo.plain d Cases.signed_in).2 =
    [EvBuild "calendar" "v3" Cases.stored;
     EvExecute (provider_call d Cases.stored "")].
Proof.
  cbn zeta.
  apply (delegated_makes_provider_call Demo.plain Cases.signed_in
           (CreateEvent "Standup" "2026-11-04T09:00:00Z" "2026-11-04T09:15:00Z")
           "ya29.token" "" Cases.stored); reflexivity.
Defined.

Lemma delegated_failure_before_provider_call_witness :
  (handle Cases.bad_message (GmailSend "a@example.org" "hello" "text")
     Cases.signed_in).1 = Raise (ValueError "header value has a newline") /\
  trace (handle Cases.bad_message (GmailSend "a@example.org" "hello" "text")
           Cases.signed_in).2 = [EvBuild "gmail" "v1" Cases.stored].
Proof.
  apply (delegated_failure_before_provider_call Cases.bad_message Cases.signed_in
           (GmailSend "a@example.org" "hello" "text") "ya29.token" Cases.stored
           (ValueError "header value has a newline")).
  - reflexivity.
  - reflexivity.
  - right. split; reflexivity.
Defined.

Lemma only_callback_writes_files_witness :
  fs (route Demo.plain (Delegated GmailThreads) Cases.signed_in).2 = fs Cases.signed_in.
Proof.
  destruct (only_callback_writes_files Demo.plain (Delegated GmailThreads)
              Cases.signed_in) as [H _].
  apply H. reflexivity.
Defined.

Lemma authentication_changes_only_by_callback_witness :
  let calls := [Proxy (PGeocode "Eiffel Tower"); News "top stories";
                Delegated GmailThreads; AuthGoogle; Movies "" 1; Stock "AAPL"] in
  (handle Demo.plain GmailThreads (run_all Demo.plain calls Cases.signed_in)).1 =
  (handle Demo.plain GmailThreads Cases.signed_in).1.
Proof.
  cbn zeta.
  destruct (authentication_changes_only_by_callback Demo.plain
              [Proxy (PGeocode "Eiffel Tower"); News "top stories";
               Delegated GmailThreads; AuthGoogle; Movies "" 1; Stock "AAPL"]
              Cases.signed_in) as (_ & _ & H); [reflexivity|].
  apply (H GmailThreads).
Defined.

Lemma auth_google_only_redirects_witness :
  auth_google Demo.plain Demo.fresh =
    (Return (RedirectResponse "https://accounts.google.com/o/oauth2/auth"), Demo.fresh).
Proof.
  destruct (auth_google_only_redirects Demo.plain Demo.fresh) as (Hw & Hr & _).
  specialize (Hr "{}" ltac:(reflexivity) ltac:(reflexivity)).
  destruct (auth_google Demo.plain Demo.fresh) as [o w'].
  cbn [fst snd] in Hw, Hr. rewrite Hw, Hr. reflexivity.
Defined.

Lemma callback_without_secrets_witness :
  oauth2callback Demo.plain "http://localhost:8000/oauth2callback?code=4/valid"
    Cases.empty = (Raise (FileNotFoundError "client_secret.json"), Cases.empty).
Proof.
  destruct (callback_without_secrets Demo.plain
              "http://localhost:8000/oauth2callback?code=4/valid" Cases.empty)
    as [H _].
  apply H. reflexivity.
Defined.

Lemma callback_without_tokens_dir_witness :
  (oauth2callback Demo.plain "http://localhost:8000/oauth2callback?code=4/valid"
     Cases.unpacked).1 = Raise (FileNotFoundError "tokens/google_token.json").
Proof.
  rewrite (callback_without_tokens_dir Demo.plain Cases.unpacked "{}"
             "http://localhost:8000/oauth2callback?code=4/valid" Demo.creds);
    reflexivity.
Defined.

Lemma callback_twice_last_wins_witness :
  let first := "http://localhost:8000/oauth2callback?code=4/one" in
  let second := "http://localhost:8000/oauth2callback?code=4/two" in
  fs (oauth2callback Cases.any_code second
        (oauth2callback Cases.any_code first Demo.fresh).2).2 !! token_path =
    Some (File second).
Proof.
  cbn zeta.
  destruct (callback_twice_last_wins Cases.any_code Demo.fresh "{}"
              "http://localhost:8000/oauth2callback?code=4/one"
              "http://localhost:8000/oauth2callback?code=4/two"
              {| token := "http://localhost:8000/oauth2callback?code=4/one";
                 refresh_token := Some "1//r"; scopes := SCOPES; expiry := None |}
              {| token := "http://localhost:8000/oauth2callback?code=4/two";
                 refresh_token := Some "1//r"; scopes := SCOPES; expiry := None |})
    as [_ H];
    [reflexivity | discriminate | reflexivity | reflexivity | reflexivity
    | reflexivity | discriminate |].
  exact H.
Defined.

Lemma callback_failure_before_write_keeps_credential_witness :
  let w' := (oauth2callback Demo.plain
               "http://localhost:8000/oauth2callback?code=4/expired"
               Cases.signed_in).2 in
  fs w' = fs Cases.signed_in /\
  (handle Demo.plain GmailThreads w').1 =
    (handle Demo.plain GmailThreads Cases.signed_in).1.
Proof.
  cbn zeta.
  destruct (callback_failure_before_write_keeps_credential Demo.plain
              "http://localhost:8000/oauth2callback?code=4/expired" Cases.signed_in
              (LibraryError "oauthlib" "invalid_grant")) as (_ & Hfs & _ & Hd).
  - right. exists "{}". split; [reflexivity|]. split; [reflexivity|].
    left. reflexivity.
  - split; [exact Hfs | apply (Hd GmailThreads)].
Defined.

Lemma startup_keeps_token_witness :
  fs (startup Cases.unpacked).2 !! TOKENS_DIR = Some Dir /\
  fs (startup Cases.unpacked).2 !! "client_secret.json" = Some (File "{}").
Proof.
  destruct (startup_keeps_token Demo.plain Cases.unpacked) as [H _].
  destruct (H ltac:(reflexivity)) as (Hd & Hp & _).
  split; [exact Hd|]. rewrite Hp; [reflexivity | discriminate].
Defined.

Lemma news_first_twelve_when_titled_witness :
  exists items : list pyval,
    (news Demo.plain "top stories" Demo.fresh).1 =
      Return (Content (PyDict [("query", PyStr "top stories");
                               ("items", PyList items)])) /\
    length items = 12%nat.
Proof.
  destruct (news_first_twelve_when_titled Demo.plain "top stories" Demo.fresh)
    as (_ & items & Hr & _ & Hlen & _).
  - repeat constructor; eexists; reflexivity.
  - exists items. split; [exact Hr | exact Hlen].
Defined.
